(** * Address book manager: a shallow embedding of [address_book_manager.py]

    The development follows the layout of the Python module:

    - the parts of the Python runtime the module calls ([str.split], the
      backtracking matcher behind [re.match] and [datetime.strptime], the
      proleptic Gregorian calendar of [datetime]);
    - the field classes [Field], [Name], [Phone], [Birthday];
    - the class [Record] and the class [AddressBook];
    - the command functions wrapped by [input_error], [parse_input] and the
      read-evaluate-print loop of [main].

    Python strings are embedded as [string], that is as sequences of 8-bit
    characters (code points 0..255).  In that range the decimal digits of
    Unicode (what [\d] matches) are exactly ['0'..'9'] and the white space
    characters (what [str.split] and [str.strip] cut at) are the code points
    9..13, 28..32, 133 and 160. *)

From Stdlib Require Import String Ascii List ZArith Lia Bool Arith.
From Stdlib Require Import DecimalString.
Import ListNotations.

Open Scope string_scope.
Open Scope Z_scope.

Set Implicit Arguments.

(** ** Exceptions and results *)

(** The exception classes the module raises or lets escape, with their
    argument. *)
Inductive exn : Type :=
| ValueError (msg : string)
| KeyError (key : string)
| IndexError (msg : string)
| OverflowError (msg : string)
| EOFError
| UnpicklingError.

(** [str(e)]: the message for every class but [KeyError], whose [__str__]
    is the [repr] of its argument.  The only [KeyError] argument of the
    module is the literal ["Contact not found."], whose [repr] is the same
    text between single quotes. *)
Definition exn_str (e : exn) : string :=
  match e with
  | ValueError m => m
  | KeyError k => "'" ++ k ++ "'"
  | IndexError m => m
  | OverflowError m => m
  | EOFError => ""
  | UnpicklingError => "pickle data was truncated"
  end.

Inductive result (A : Type) : Type :=
| Ok (a : A)
| Raise (e : exn).
Arguments Ok {A} a.
Arguments Raise {A} e.

Definition is_ok {A} (r : result A) : bool :=
  match r with Ok _ => true | Raise _ => false end.

(** Pure computations that may raise. *)
Definition rbind {A B} (r : result A) (k : A -> result B) : result B :=
  match r with Ok a => k a | Raise e => Raise e end.

(** Computations over a mutable object of type [S]: an exception leaves the
    object as it was mutated so far. *)
Definition M (S A : Type) : Type := S -> result A * S.

Definition ret {S A} (a : A) : M S A := fun s => (Ok a, s).
Definition raise {S A} (e : exn) : M S A := fun s => (Raise e, s).
Definition bind {S A B} (m : M S A) (k : A -> M S B) : M S B :=
  fun s => match m s with
           | (Ok a, s') => k a s'
           | (Raise e, s') => (Raise e, s')
           end.
Definition get {S} : M S S := fun s => (Ok s, s).
Definition put {S} (s : S) : M S unit := fun _ => (Ok tt, s).
Definition lift {S A} (r : result A) : M S A := fun s => (r, s).

Declare Scope py_scope.
Delimit Scope py_scope with py.
Notation "x <- m ;; k" := (bind m (fun x => k))
  (at level 100, m at next level, right associativity) : py_scope.
Notation "m ;;; k" := (bind m (fun _ => k))
  (at level 100, right associativity) : py_scope.

(** ** Strings *)

Module PyStr.

Definition LF : ascii := "010"%char.

Definition code (c : ascii) : N := N_of_ascii c.

(** [c.isdigit()] on the 8-bit range, also the class [\d]. *)
Definition isdigit (c : ascii) : bool :=
  (48 <=? code c)%N && (code c <=? 57)%N.

(** [c.isspace()] on the 8-bit range. *)
Definition isspace (c : ascii) : bool :=
  ((9 <=? code c)%N && (code c <=? 13)%N)
  || ((28 <=? code c)%N && (code c <=? 32)%N)
  || (code c =? 133)%N || (code c =? 160)%N.

Definition is_empty (s : string) : bool :=
  match s with EmptyString => true | String _ _ => false end.

Fixpoint forallb (p : ascii -> bool) (s : string) : bool :=
  match s with
  | EmptyString => true
  | String c s' => p c && forallb p s'
  end.

(** [s.split()]: the maximal runs of non-space characters, in order.
    [tok] is the run being read. *)
Fixpoint split_run (s tok : string) : list string :=
  match s with
  | EmptyString => if is_empty tok then [] else [tok]
  | String c s' =>
      if isspace c
      then (if is_empty tok then split_run s' "" else tok :: split_run s' "")
      else split_run s' (tok ++ String c "")
  end.

Definition split (s : string) : list string := split_run s "".

(** [sep.join(l)]. *)
Fixpoint join (sep : string) (l : list string) : string :=
  match l with
  | [] => ""
  | [x] => x
  | x :: l' => x ++ sep ++ join sep l'
  end.

Fixpoint lstrip (s : string) : string :=
  match s with
  | String c s' => if isspace c then lstrip s' else s
  | EmptyString => ""
  end.

Definition digit_value (c : ascii) : Z := Z.of_N (code c) - 48.

Fixpoint digits_value (acc : Z) (s : string) : Z :=
  match s with
  | EmptyString => acc
  | String c s' => digits_value (10 * acc + digit_value c) s'
  end.

(** [str(z)] of an integer. *)
Definition str_of_int (z : Z) : string :=
  NilZero.string_of_int (Z.to_int z).

(** [int(s)] on the texts [strptime] hands it: decimal digits, possibly
    after white space.  (The sign and the underscores [int] accepts as
    well cannot occur in those texts and are not modelled.) *)
Definition int (s : string) : result Z :=
  let t := lstrip s in
  if is_empty t || negb (forallb isdigit t)
  then Raise (ValueError "invalid literal for int() with base 10")
  else Ok (digits_value 0 t).

End PyStr.

(** ** Regular expressions *)

Module PyRe.

(** The fragment of [re] syntax used by the module and by [strptime]:
    character classes, concatenation, alternation, the anchors [^] and
    [$], named groups.  [{n}] is [rep]. *)
Inductive regex : Type :=
| Eps
| Cls (p : ascii -> bool)
| Seq (r1 r2 : regex)
| Alt (r1 r2 : regex)
| Bol
| Eol
| Grp (name : string) (r : regex).

Fixpoint rep (n : nat) (r : regex) : regex :=
  match n with
  | O => Eps
  | S n' => Seq r (rep n' r)
  end.

Definition chr (c : ascii) : regex := Cls (Ascii.eqb c).
Definition in_range (lo hi c : ascii) : bool :=
  (PyStr.code lo <=? PyStr.code c)%N && (PyStr.code c <=? PyStr.code hi)%N.
Definition range (lo hi : ascii) : regex := Cls (in_range lo hi).
Definition digit : regex := Cls PyStr.isdigit.

(** A position of the matcher: characters consumed, text left, groups
    captured. *)
Record mstate : Type := MState {
  pos : nat;
  rest : string;
  groups : list (string * string)
}.

(** [$] without [re.MULTILINE]: at the end of the text, or just before a
    line feed that ends the text. *)
Definition at_eol (s : string) : bool :=
  match s with
  | EmptyString => true
  | String c EmptyString => Ascii.eqb c PyStr.LF
  | _ => false
  end.

(** The backtracking matcher: every way to match [r] from [st], in the
    order the engine tries them (left alternative first). *)
Fixpoint rmatch (r : regex) (st : mstate) : list mstate :=
  match r with
  | Eps => [st]
  | Cls p =>
      match rest st with
      | String c s' =>
          if p c then [MState (S (pos st)) s' (groups st)] else []
      | EmptyString => []
      end
  | Seq r1 r2 => flat_map (rmatch r2) (rmatch r1 st)
  | Alt r1 r2 => rmatch r1 st ++ rmatch r2 st
  | Bol => if (pos st =? 0)%nat then [st] else []
  | Eol => if at_eol (rest st) then [st] else []
  | Grp n r' =>
      map (fun st' =>
             MState (pos st') (rest st')
                    ((n, substring 0 (pos st' - pos st) (rest st))
                       :: groups st'))
          (rmatch r' st)
  end.

(** [re.match(r, s)]: the first match that starts at the beginning of
    [s], or [None]. *)
Definition re_match (r : regex) (s : string) : option mstate :=
  hd_error (rmatch r (MState 0 s [])).

(** [m.end()] and [m.group(name)]. *)
Definition m_end (m : mstate) : nat := pos m.

Fixpoint assoc (n : string) (l : list (string * string)) : string :=
  match l with
  | [] => ""
  | (k, v) :: l' => if String.eqb k n then v else assoc n l'
  end.

Definition group (m : mstate) (n : string) : string := assoc n (groups m).

End PyRe.

(** ** Fields *)

(** [Field.__init__] runs the subclass's [_validate] and stores the value;
    a field object is embedded as the string it holds. *)
Module Field.
Definition _validate (value : string) : result unit := Ok tt.
Definition new (validate : string -> result unit) (value : string)
  : result string :=
  rbind (validate value) (fun _ => Ok value).
End Field.

Module Name.
Definition new (value : string) : result string :=
  Field.new Field._validate value.
End Name.

Module Phone.
Import PyRe.

(** [r'^\d{10}$'] *)
Definition pattern : regex := Seq Bol (Seq (rep 10 digit) Eol).

Definition _validate (value : string) : result unit :=
  match re_match pattern value with
  | Some _ => Ok tt
  | None => Raise (ValueError "Phone number must have 10 digits.")
  end.

Definition new (value : string) : result string :=
  Field.new _validate value.
End Phone.

(** ** Dates and times *)

Module PyDatetime.
Import PyRe.

Definition MINYEAR : Z := 1.
Definition MAXYEAR : Z := 9999.
Definition MAXORDINAL : Z := 3652059.

Definition DAYS_IN_MONTH : list Z :=
  [-1; 31; 28; 31; 30; 31; 30; 31; 31; 30; 31; 30; 31].
Definition DAYS_BEFORE_MONTH : list Z :=
  [-1; 0; 31; 59; 90; 120; 151; 181; 212; 243; 273; 304; 334].

Definition table (t : list Z) (i : Z) : Z := nth (Z.to_nat i) t 0.

Definition is_leap (year : Z) : bool :=
  (year mod 4 =? 0) && (negb (year mod 100 =? 0) || (year mod 400 =? 0)).

Definition days_before_year (year : Z) : Z :=
  let y := year - 1 in y * 365 + y / 4 - y / 100 + y / 400.

Definition days_in_month (year month : Z) : Z :=
  if (month =? 2) && is_leap year then 29 else table DAYS_IN_MONTH month.

Definition days_before_month (year month : Z) : Z :=
  table DAYS_BEFORE_MONTH month
  + (if (2 <? month) && is_leap year then 1 else 0).

Definition ymd2ord (year month day : Z) : Z :=
  days_before_year year + days_before_month year month + day.

Definition DI400Y : Z := days_before_year 401.
Definition DI100Y : Z := days_before_year 101.
Definition DI4Y : Z := days_before_year 5.

Definition ord2ymd (n : Z) : Z * Z * Z :=
  let n := n - 1 in
  let n400 := n / DI400Y in
  let n := n mod DI400Y in
  let year := n400 * 400 + 1 in
  let n100 := n / DI100Y in
  let n := n mod DI100Y in
  let n4 := n / DI4Y in
  let n := n mod DI4Y in
  let n1 := n / 365 in
  let n := n mod 365 in
  let year := year + n100 * 100 + n4 * 4 + n1 in
  if (n1 =? 4) || (n100 =? 4) then (year - 1, 12, 31)
  else
    let leapyear := (n1 =? 3) && (negb (n4 =? 24) || (n100 =? 3)) in
    let month := Z.shiftr (n + 50) 5 in
    let preceding :=
      table DAYS_BEFORE_MONTH month
      + (if (2 <? month) && leapyear then 1 else 0) in
    if n <? preceding
    then
      let month := month - 1 in
      let preceding :=
        preceding
        - (table DAYS_IN_MONTH month
           + (if (month =? 2) && leapyear then 1 else 0)) in
      (year, month, n - preceding + 1)
    else (year, month, n - preceding + 1).

(** A naive [datetime] object. *)
Record datetime : Type := Datetime {
  year : Z;
  month : Z;
  day : Z;
  hour : Z;
  minute : Z;
  second : Z;
  microsecond : Z
}.

(** The range checks of the [datetime] constructor on the date fields
    (the time fields the module passes are always in range). *)
Definition check_date_fields (y m d : Z) : result unit :=
  if negb ((MINYEAR <=? y) && (y <=? MAXYEAR))
  then Raise (ValueError ("year " ++ PyStr.str_of_int y
                          ++ " is out of range"))
  else if negb ((1 <=? m) && (m <=? 12))
  then Raise (ValueError "month must be in 1..12")
  else if negb ((1 <=? d) && (d <=? days_in_month y m))
  then Raise (ValueError "day is out of range for month")
  else Ok tt.

Definition new (y m d hh mm ss us : Z) : result datetime :=
  rbind (check_date_fields y m d)
        (fun _ => Ok (Datetime y m d hh mm ss us)).

(** [dt.replace(year=y)] *)
Definition replace_year (dt : datetime) (y : Z) : result datetime :=
  new y (month dt) (day dt) (hour dt) (minute dt) (second dt)
      (microsecond dt).

Definition toordinal (dt : datetime) : Z :=
  ymd2ord (year dt) (month dt) (day dt).

(** Comparison of naive datetimes: lexicographic on the seven fields. *)
Definition fields (dt : datetime) : list Z :=
  [year dt; month dt; day dt; hour dt; minute dt; second dt;
   microsecond dt].

Fixpoint cmp_fields (a b : list Z) : comparison :=
  match a, b with
  | x :: a', y :: b' =>
      match x ?= y with
      | Eq => cmp_fields a' b'
      | c => c
      end
  | [], [] => Eq
  | [], _ :: _ => Lt
  | _ :: _, [] => Gt
  end.

Definition cmp (a b : datetime) : comparison :=
  cmp_fields (fields a) (fields b).

Definition lt (a b : datetime) : bool :=
  match cmp a b with Lt => true | _ => false end.
Definition le (a b : datetime) : bool :=
  match cmp a b with Gt => false | _ => true end.

(** [dt + timedelta(days=n)] *)
Definition add_days (dt : datetime) (n : Z) : result datetime :=
  let days := toordinal dt + n in
  if (0 <? days) && (days <=? MAXORDINAL)
  then
    let '(y, m, d) := ord2ymd days in
    Ok (Datetime y m d (hour dt) (minute dt) (second dt) (microsecond dt))
  else Raise (OverflowError "date value out of range").

(** [(a - b).days]: the difference is normalised so that its seconds and
    microseconds are not negative, hence the floor. *)
Definition microseconds (dt : datetime) : Z :=
  ((toordinal dt * 86400
    + (hour dt * 3600 + minute dt * 60 + second dt)) * 1000000)
  + microsecond dt.

Definition sub_days (a b : datetime) : Z :=
  (microseconds a - microseconds b) / (86400 * 1000000).

(** The patterns [strptime] substitutes for the directives [%d], [%m]
    and [%Y]. *)
Definition re_d : regex :=
  Grp "d"
    (Alt (Seq (chr "3") (range "0" "1"))
    (Alt (Seq (range "1" "2") digit)
    (Alt (Seq (chr "0") (range "1" "9"))
    (Alt (range "1" "9")
         (Seq (chr " ") (range "1" "9")))))).

Definition re_m : regex :=
  Grp "m"
    (Alt (Seq (chr "1") (range "0" "2"))
    (Alt (Seq (chr "0") (range "1" "9"))
         (range "1" "9"))).

Definition re_Y : regex := Grp "Y" (rep 4 digit).

(** The pattern of the format ["%d.%m.%Y"]. *)
Definition format_regex : regex :=
  Seq re_d (Seq (chr ".") (Seq re_m (Seq (chr ".") re_Y))).

(** [datetime.strptime(value, "%d.%m.%Y")] *)
Definition strptime (value : string) : result datetime :=
  match re_match format_regex value with
  | None =>
      Raise (ValueError ("time data '" ++ value
                         ++ "' does not match format '%d.%m.%Y'"))
  | Some found =>
      if negb (String.length value =? m_end found)%nat
      then Raise (ValueError ("unconverted data remains: " ++ rest found))
      else
        rbind (PyStr.int (group found "Y")) (fun y =>
        rbind (PyStr.int (group found "m")) (fun m =>
        rbind (PyStr.int (group found "d")) (fun d =>
        new y m d 0 0 0 0)))
  end.

End PyDatetime.

Module Birthday.
Definition _validate (value : string) : result unit :=
  match PyDatetime.strptime value with
  | Ok _ => Ok tt
  | Raise (ValueError _) =>
      Raise (ValueError "Invalid date format. Use DD.MM.YYYY")
  | Raise e => Raise e
  end.

Definition new (value : string) : result string :=
  Field.new _validate value.

(** The property [date]. *)
Definition date (value : string) : result PyDatetime.datetime :=
  PyDatetime.strptime value.
End Birthday.


(** ** Dictionaries *)

(** A [dict] with string keys: the entries in insertion order, one per key.
    Assigning to a key that is present keeps its place; a new key goes to
    the end. *)
Module PyDict.
Section Dict.
Variable V : Type.

Definition dict : Type := list (string * V).

Fixpoint get (k : string) (d : dict) : option V :=
  match d with
  | [] => None
  | (k', v) :: d' => if String.eqb k' k then Some v else get k d'
  end.

Fixpoint set (k : string) (v : V) (d : dict) : dict :=
  match d with
  | [] => [(k, v)]
  | (k', v') :: d' =>
      if String.eqb k' k then (k', v) :: d' else (k', v') :: set k v d'
  end.

(** The entry under [k], if there is one, gets the value [v]; a mapping
    without [k] is left as it is. *)
Fixpoint replace (k : string) (v : V) (d : dict) : dict :=
  match d with
  | [] => []
  | (k', v') :: d' =>
      if String.eqb k' k then (k', v) :: d' else (k', v') :: replace k v d'
  end.

Fixpoint del (k : string) (d : dict) : dict :=
  match d with
  | [] => []
  | (k', v') :: d' =>
      if String.eqb k' k then d' else (k', v') :: del k d'
  end.

Definition contains (k : string) (d : dict) : bool :=
  match get k d with Some _ => true | None => false end.

Definition keys (d : dict) : list string := map fst d.
Definition values (d : dict) : list V := map snd d.
End Dict.
End PyDict.

(** [l[i]] *)
Definition list_get (l : list string) (i : nat) : result string :=
  match nth_error l i with
  | Some x => Ok x
  | None => Raise (IndexError "list index out of range")
  end.

(** ** Records *)

Module Record.

(** A [Record] object: the value of its [name] field, the values of its
    [Phone] objects in list order, the value of its [Birthday] if any. *)
Record t : Type := Make {
  name : string;
  phones : list string;
  birthday : option string
}.

Definition new (name : string) : t := Make name [] None.

Definition set_phones (self : t) (ps : list string) : t :=
  Make (name self) ps (birthday self).
Definition set_birthday (self : t) (b : option string) : t :=
  Make (name self) (phones self) b.

Definition add_phone (phone : string) : M t unit :=
  (p <- lift (Phone.new phone) ;;
   self <- get ;;
   put (set_phones self (phones self ++ [p])))%py.

Definition remove_phone (phone : string) : M t unit :=
  (self <- get ;;
   put (set_phones self
          (filter (fun p => negb (String.eqb p phone)) (phones self))))%py.

(** The loop of [edit_phone] over the phone objects: the first one whose
    value is [old_phone] gets the validated new value and the method
    returns; falling off the end raises. *)
Fixpoint edit_phone_loop (ps : list string) (old_phone new_phone : string)
  : result (list string) :=
  match ps with
  | [] => Raise (ValueError "Phone not found.")
  | p :: ps' =>
      if String.eqb p old_phone
      then rbind (Phone.new new_phone) (fun v => Ok (v :: ps'))
      else rbind (edit_phone_loop ps' old_phone new_phone)
                 (fun l => Ok (p :: l))
  end.

Definition edit_phone (old_phone new_phone : string) : M t unit :=
  (self <- get ;;
   ps <- lift (edit_phone_loop (phones self) old_phone new_phone) ;;
   put (set_phones self ps))%py.

Definition add_birthday (birthday : string) : M t unit :=
  (b <- lift (Birthday.new birthday) ;;
   self <- get ;;
   put (set_birthday self (Some b)))%py.

Definition get_birthday (self : t) : string :=
  match birthday self with
  | Some b => b
  | None => "Birthday not set."
  end.

(** [today] is what [datetime.today()] returns at the call. *)
Definition days_to_birthday (today : PyDatetime.datetime) (self : t)
  : result (option Z) :=
  match birthday self with
  | Some b =>
      rbind (Birthday.date b) (fun d =>
      rbind (PyDatetime.replace_year d (PyDatetime.year today))
            (fun next_birthday =>
      rbind (if PyDatetime.lt next_birthday today
             then PyDatetime.replace_year next_birthday
                    (PyDatetime.year today + 1)
             else Ok next_birthday)
            (fun next_birthday =>
      Ok (Some (PyDatetime.sub_days next_birthday today)))))
  | None => Ok None
  end.

Definition str (self : t) : string :=
  "Contact name: " ++ name self
  ++ ", phones: " ++ PyStr.join "; " (phones self)
  ++ ", birthday: " ++ get_birthday self.

End Record.

(** ** Persistence *)

(** The mapping held in [AddressBook.data]. *)
Definition book_data : Type := PyDict.dict Record.t.

(** [pickle.dump] and [pickle.load] on such a mapping.  The byte format is
    private to [pickle]; the module relies on nothing but that loading
    what was dumped gives the mapping back. *)
Class Pickle : Type := {
  bytes : Type;
  pickle_dump : book_data -> bytes;
  pickle_load : bytes -> result book_data
}.

Class PickleRoundTrip (P : Pickle) : Prop :=
  load_dump : forall d : book_data, pickle_load (pickle_dump d) = Ok d.

(** The files by name: their content, or [None] where there is none. *)
Definition files `{Pickle} : Type := string -> option bytes.

Definition write_file `{Pickle} (filename : string) (content : bytes)
  (fs : files) : files :=
  fun f => if String.eqb f filename then Some content else fs f.

(** ** The address book *)

Module AddressBook.

Definition t : Type := book_data.

Definition empty : t := [].

Definition add_record (record : Record.t) : M t unit :=
  (data <- get ;;
   put (PyDict.set (Record.name record) record data))%py.

Definition find (name : string) (data : t) : option Record.t :=
  PyDict.get name data.

Definition delete (name : string) : M t unit :=
  (data <- get ;;
   if PyDict.contains name data
   then put (PyDict.del name data)
   else raise (KeyError "Contact not found."))%py.

(** The condition of the comprehension in [get_upcoming_birthdays]. *)
Definition upcoming (today next_week : PyDatetime.datetime)
  (record : Record.t) : result bool :=
  match Record.birthday record with
  | Some b =>
      rbind (Birthday.date b) (fun d =>
      rbind (PyDatetime.replace_year d (PyDatetime.year today))
            (fun this_year =>
      Ok (PyDatetime.le today this_year
          && PyDatetime.le this_year next_week)))
  | None => Ok false
  end.

Fixpoint comprehension (cond : Record.t -> result bool)
  (records : list Record.t) : result (list Record.t) :=
  match records with
  | [] => Ok []
  | record :: records' =>
      rbind (cond record) (fun keep =>
      rbind (comprehension cond records') (fun l =>
      Ok (if keep then record :: l else l)))
  end.

(** [today] is what [datetime.today()] returns at the call. *)
Definition get_upcoming_birthdays (today : PyDatetime.datetime) (data : t)
  : result (list Record.t) :=
  rbind (PyDatetime.add_days today 7) (fun next_week =>
  comprehension (upcoming today next_week) (PyDict.values data)).

Section Storage.
Context `{Pickle}.

(** Opening for writing creates or truncates the file; failures of the
    operating system are outside the model. *)
Definition save_to_file (filename : string) (data : t) (fs : files)
  : files :=
  write_file filename (pickle_dump data) fs.

Definition load_from_file (filename : string) (fs : files) : M t unit :=
  match fs filename with
  | Some content => (data <- lift (pickle_load content) ;; put data)%py
  | None => put []
  end.
End Storage.

End AddressBook.

(** ** Commands *)

(** A method called through the reference [record] that [find] returned
    for [name] (or that was just stored under it): the object is the one
    the mapping holds under that key, so the entry under [name] shows its
    new state.  The call itself never inserts into the mapping: where
    there is no entry under [name], the mapping is left as it is. *)
Definition on_record {A} (name : string) (record : Record.t)
  (method : M Record.t A) : M AddressBook.t A :=
  fun data =>
    let (res, record') := method record in
    (res, PyDict.replace name record' data).

Definition gets {S A} (f : S -> A) : M S A := fun s => (Ok (f s), s).

(** The classes named in the [except] clause of [input_error]. *)
Definition caught (e : exn) : bool :=
  match e with
  | ValueError _ | KeyError _ | IndexError _ => true
  | _ => false
  end.

(** The decorator [input_error]. *)
Definition input_error {S} (func : list string -> M S string)
  : list string -> M S string :=
  fun args s =>
    match func args s with
    | (Raise e, s') =>
        if caught e then (Ok (exn_str e), s') else (Raise e, s')
    | (Ok a, s') => (Ok a, s')
    end.

(** The truth value of [phone], a string or [None]. *)
Definition truthy (phone : option string) : bool :=
  match phone with
  | Some p => negb (PyStr.is_empty p)
  | None => false
  end.

Definition add_contact_body (args : list string) : M AddressBook.t string :=
  (name <- lift (list_get args 0) ;;
   phone <- (if (1 <? List.length args)%nat
             then (p <- lift (list_get args 1) ;; ret (Some p))
             else ret None) ;;
   found <- gets (AddressBook.find name) ;;
   rm <- match found with
         | None =>
             let record := Record.new name in
             (AddressBook.add_record record ;;;
              ret (record, "Contact added."))
         | Some record => ret (record, "Contact updated.")
         end ;;
   (match phone with
    | Some p =>
        if truthy phone
        then on_record name (fst rm) (Record.add_phone p)
        else ret tt
    | None => ret tt
    end) ;;;
   ret (snd rm))%py.

Definition add_contact := input_error add_contact_body.

Definition add_birthday_body (args : list string) : M AddressBook.t string :=
  (name <- lift (list_get args 0) ;;
   birthday <- lift (list_get args 1) ;;
   found <- gets (AddressBook.find name) ;;
   match found with
   | None => raise (KeyError "Contact not found.")
   | Some record =>
       (on_record name record (Record.add_birthday birthday) ;;;
        ret ("Birthday added for " ++ name ++ "."))
   end)%py.

Definition add_birthday := input_error add_birthday_body.

Definition show_birthday_body (args : list string) : M AddressBook.t string :=
  (name <- lift (list_get args 0) ;;
   found <- gets (AddressBook.find name) ;;
   match found with
   | None => raise (KeyError "Contact not found.")
   | Some record =>
       ret (name ++ "'s birthday is " ++ Record.get_birthday record)
   end)%py.

Definition show_birthday := input_error show_birthday_body.

Definition birthdays_body (today : PyDatetime.datetime) (_ : list string)
  : M AddressBook.t string :=
  (data <- get ;;
   upcoming <- lift (AddressBook.get_upcoming_birthdays today data) ;;
   match upcoming with
   | [] => ret "No upcoming birthdays in the next week."
   | _ => ret (PyStr.join (String PyStr.LF "") (map Record.str upcoming))
   end)%py.

Definition birthdays (today : PyDatetime.datetime) :=
  input_error (birthdays_body today).

Definition parse_input (user_input : string) : result (string * list string) :=
  let parts := PyStr.split user_input in
  rbind (list_get parts 0) (fun command => Ok (command, tl parts)).

(** ** The program *)

Section Program.
Context `{Pickle}.

(** What the process acts on: the address book, the files, and the lines
    printed so far (the prompt of [input] is not recorded). *)
Record world : Type := World {
  book : AddressBook.t;
  disk : files;
  stdout : list string
}.

Definition print (line : string) : M world unit :=
  fun w => (Ok tt, World (book w) (disk w) (stdout w ++ [line])).

Definition in_book {A} (m : M AddressBook.t A) : M world A :=
  fun w =>
    let (res, data) := m (book w) in
    (res, World data (disk w) (stdout w)).

Definition default_filename : string := "addressbook.pkl".

Definition save_book : M world unit :=
  fun w =>
    (Ok tt,
     World (book w)
           (AddressBook.save_to_file default_filename (book w) (disk w))
           (stdout w)).

Fixpoint print_all (lines : list string) : M world unit :=
  match lines with
  | [] => ret tt
  | l :: lines' => (print l ;;; print_all lines')%py
  end.

(** [str(n)] for [n] below ten. *)
Definition digit_str (n : nat) : string := String (ascii_of_nat (48 + n)) "".

Definition cmd_is (command name : string) : bool :=
  String.eqb command name.

(** The body of the [while] loop after [parse_input]: [true] stands for
    [break], an exception for one that leaves [main]. *)
Definition dispatch (now : PyDatetime.datetime) (command : string)
  (args : list string) : M world bool :=
  (if cmd_is command "close" || cmd_is command "exit" then
     (save_book ;;; print "Good bye!" ;;; ret true)
   else if cmd_is command "hello" then
     (print "How can I help you?" ;;; ret false)
   else if cmd_is command "add" then
     (msg <- in_book (add_contact args) ;;
      print msg ;;; save_book ;;; ret false)
   else if cmd_is command "change" then
     match args with
     | [name; old_phone; new_phone] =>
         (found <- in_book (gets (AddressBook.find name)) ;;
          match found with
          | Some record =>
              (in_book (on_record name record
                          (Record.edit_phone old_phone new_phone)) ;;;
               print "None" ;;; save_book ;;; ret false)
          | None => (print "Contact not found." ;;; ret false)
          end)
     | _ :: _ :: _ :: _ :: _ =>
         raise (ValueError "too many values to unpack (expected 3)")
     | _ =>
         raise (ValueError ("not enough values to unpack (expected 3, got "
                            ++ digit_str (List.length args) ++ ")"))
     end
   else if cmd_is command "phone" then
     (name <- lift (list_get args 0) ;;
      found <- in_book (gets (AddressBook.find name)) ;;
      match found with
      | Some record =>
          (print (name ++ "'s phones: "
                  ++ PyStr.join ", " (Record.phones record)) ;;;
           ret false)
      | None => (print "Contact not found." ;;; ret false)
      end)
   else if cmd_is command "all" then
     (data <- in_book get ;;
      print_all (map Record.str (PyDict.values data)) ;;; ret false)
   else if cmd_is command "add-birthday" then
     (msg <- in_book (add_birthday args) ;;
      print msg ;;; save_book ;;; ret false)
   else if cmd_is command "show-birthday" then
     (msg <- in_book (show_birthday args) ;;
      print msg ;;; ret false)
   else if cmd_is command "birthdays" then
     (msg <- in_book (birthdays now args) ;;
      print msg ;;; ret false)
   else
     (print "Invalid command." ;;; ret false))%py.

(** One turn of the loop on the line [user_input] read from the console,
    [now] being the time at that turn. *)
Definition step (now : PyDatetime.datetime) (user_input : string)
  : M world bool :=
  (ca <- lift (parse_input user_input) ;;
   dispatch now (fst ca) (snd ca))%py.

(** The loop on the lines still to come from the console; [input] raises
    [EOFError] when there is none left. *)
Fixpoint loop (inputs : list (PyDatetime.datetime * string))
  : M world unit :=
  match inputs with
  | [] => raise EOFError
  | (now, user_input) :: inputs' =>
      (stop <- step now user_input ;;
       if (stop : bool) then ret tt else loop inputs')%py
  end.

Definition load_book : M world unit :=
  fun w =>
    let (res, data) :=
      AddressBook.load_from_file default_filename (disk w) (book w) in
    (res, World data (disk w) (stdout w)).

Definition main_body (inputs : list (PyDatetime.datetime * string))
  : M world unit :=
  (load_book ;;;
   print "Welcome to the assistant bot!" ;;;
   loop inputs)%py.

(** [main()] in a process that finds the files [fs] and is fed the lines
    [inputs]. *)
Definition main (fs : files) (inputs : list (PyDatetime.datetime * string))
  : result unit * world :=
  main_body inputs (World AddressBook.empty fs []).

End Program.

(** ** A reference serialisation *)

(** A concrete byte format with the round-trip property, to run the
    program on: lengths and counts in unary (["1"] repeated, then ["0"]),
    texts as their length followed by their characters, a record as its
    name, the count of its phones and the phones, a flag for the birthday
    and the birthday, a mapping as the count of its entries and, for each,
    the key and the record. *)
Module RefPickle.

Definition mark : ascii := "1"%char.
Definition stop : ascii := "0"%char.

Fixpoint enc_nat (n : nat) : list ascii :=
  match n with
  | O => [stop]
  | S n' => mark :: enc_nat n'
  end.

Fixpoint dec_nat (l : list ascii) : option (nat * list ascii) :=
  match l with
  | [] => None
  | c :: l' =>
      if Ascii.eqb c mark
      then match dec_nat l' with
           | Some (n, r) => Some (S n, r)
           | None => None
           end
      else if Ascii.eqb c stop then Some (O, l') else None
  end.

Definition enc_str (s : string) : list ascii :=
  enc_nat (String.length s) ++ list_ascii_of_string s.

Definition dec_str (l : list ascii) : option (string * list ascii) :=
  match dec_nat l with
  | Some (n, r) =>
      if (n <=? List.length r)%nat
      then Some (string_of_list_ascii (firstn n r), skipn n r)
      else None
  | None => None
  end.

Section Items.
Variable A : Type.
Variable enc : A -> list ascii.
Variable dec : list ascii -> option (A * list ascii).

Definition enc_list (l : list A) : list ascii :=
  enc_nat (List.length l) ++ flat_map enc l.

Fixpoint dec_items (n : nat) (l : list ascii)
  : option (list A * list ascii) :=
  match n with
  | O => Some ([], l)
  | S n' =>
      match dec l with
      | Some (a, r) =>
          match dec_items n' r with
          | Some (items, r') => Some (a :: items, r')
          | None => None
          end
      | None => None
      end
  end.

Definition dec_list (l : list ascii) : option (list A * list ascii) :=
  match dec_nat l with
  | Some (n, r) => dec_items n r
  | None => None
  end.

Definition enc_option (o : option A) : list ascii :=
  match o with
  | Some a => mark :: enc a
  | None => [stop]
  end.

Definition dec_option (l : list ascii)
  : option (option A * list ascii) :=
  match l with
  | [] => None
  | c :: l' =>
      if Ascii.eqb c mark
      then match dec l' with
           | Some (a, r) => Some (Some a, r)
           | None => None
           end
      else if Ascii.eqb c stop then Some (None, l') else None
  end.
End Items.

Definition enc_record (r : Record.t) : list ascii :=
  enc_str (Record.name r)
  ++ enc_list enc_str (Record.phones r)
  ++ enc_option enc_str (Record.birthday r).

Definition dec_record (l : list ascii) : option (Record.t * list ascii) :=
  match dec_str l with
  | Some (n, l1) =>
      match dec_list dec_str l1 with
      | Some (ps, l2) =>
          match dec_option dec_str l2 with
          | Some (b, l3) => Some (Record.Make n ps b, l3)
          | None => None
          end
      | None => None
      end
  | None => None
  end.

Definition enc_entry (e : string * Record.t) : list ascii :=
  enc_str (fst e) ++ enc_record (snd e).

Definition dec_entry (l : list ascii)
  : option ((string * Record.t) * list ascii) :=
  match dec_str l with
  | Some (k, l1) =>
      match dec_record l1 with
      | Some (r, l2) => Some ((k, r), l2)
      | None => None
      end
  | None => None
  end.

Definition dumps (d : book_data) : list ascii := enc_list enc_entry d.

Definition loads (l : list ascii) : result book_data :=
  match dec_list dec_entry l with
  | Some (d, []) => Ok d
  | _ => Raise UnpicklingError
  end.

#[export] Instance pickle : Pickle := {
  bytes := list ascii;
  pickle_dump := dumps;
  pickle_load := loads
}.

End RefPickle.

(** ** Vocabulary of the statements *)

Module Spec.
Import PyRe.

(** The texts a pattern without anchors and groups stands for. *)
Fixpoint lang (r : regex) (D : string) : Prop :=
  match r with
  | Eps => D = ""
  | Cls p => exists c, D = String c "" /\ p c = true
  | Seq r1 r2 => exists D1 D2, D = D1 ++ D2 /\ lang r1 D1 /\ lang r2 D2
  | Alt r1 r2 => lang r1 D \/ lang r2 D
  | Bol | Eol | Grp _ _ => False
  end.

Fixpoint plain (r : regex) : bool :=
  match r with
  | Eps | Cls _ => true
  | Seq r1 r2 | Alt r1 r2 => plain r1 && plain r2
  | Bol | Eol | Grp _ _ => false
  end.

(** The pattern inside a group. *)
Definition body (r : regex) : regex :=
  match r with Grp _ r' => r' | _ => r end.

(** Exactly [n] decimal digits. *)
Definition n_digits (n : nat) (s : string) : bool :=
  (String.length s =? n)%nat && PyStr.forallb PyStr.isdigit s.

(** The shape DD.MM.YYYY: two digits, a dot, two digits, a dot, four
    digits. *)
Definition ddmmyyyy (s : string) : bool :=
  match s with
  | String d1 (String d2 (String p1 (String m1 (String m2 (String p2 Y))))) =>
      PyStr.isdigit d1 && PyStr.isdigit d2 && Ascii.eqb p1 "."
      && PyStr.isdigit m1 && PyStr.isdigit m2 && Ascii.eqb p2 "."
      && n_digits 4 Y
  | _ => false
  end.

(** The fields [strptime] takes: one or two digits, or, for the day only,
    a space and a digit. *)
Definition one_or_two_digits (s : string) : bool :=
  match s with
  | String a EmptyString => PyStr.isdigit a
  | String a (String b EmptyString) => PyStr.isdigit a && PyStr.isdigit b
  | _ => false
  end.

Definition space_digit (s : string) : bool :=
  match s with
  | String a (String b EmptyString) => Ascii.eqb a " " && PyStr.isdigit b
  | _ => false
  end.

(** The number a field denotes. *)
Definition value (s : string) : Z := PyStr.digits_value 0 (PyStr.lstrip s).

(** A date of the proleptic Gregorian calendar in the years 1..9999. *)
Definition calendar_date (y m d : Z) : bool :=
  (1 <=? y) && (y <=? 9999) && (1 <=? m) && (m <=? 12)
  && (1 <=? d) && (d <=? PyDatetime.days_in_month y m).

(** The texts D.M.Y that denote such a date. *)
Definition birthday_text (s : string) : Prop :=
  exists D M Y,
    s = D ++ "." ++ M ++ "." ++ Y
    /\ one_or_two_digits D || space_digit D = true
    /\ one_or_two_digits M = true
    /\ n_digits 4 Y = true
    /\ calendar_date (value Y) (value M) (value D) = true.

(** The texts of the patterns of [%d] and [%m], character by character. *)
Definition d_text (D : string) : bool :=
  match D with
  | String a EmptyString => in_range "1" "9" a
  | String a (String b EmptyString) =>
      (Ascii.eqb "3" a && in_range "0" "1" b)
      || (in_range "1" "2" a && PyStr.isdigit b)
      || (Ascii.eqb "0" a && in_range "1" "9" b)
      || (Ascii.eqb " " a && in_range "1" "9" b)
  | _ => false
  end.

Definition m_text (M : string) : bool :=
  match M with
  | String a EmptyString => in_range "1" "9" a
  | String a (String b EmptyString) =>
      (Ascii.eqb "1" a && in_range "0" "2" b)
      || (Ascii.eqb "0" a && in_range "1" "9" b)
  | _ => false
  end.

Definition no_dot (s : string) : bool :=
  PyStr.forallb (fun c => negb (Ascii.eqb c ".")) s.

(** Every character of the line is white space. *)
Definition blank (s : string) : bool := PyStr.forallb PyStr.isspace s.

End Spec.

(** ** Invariants of the data *)

Module Inv.

(** A token: not empty, no white space in it. *)
Definition token (t : string) : bool :=
  negb (PyStr.is_empty t)
  && PyStr.forallb (fun c => negb (PyStr.isspace c)) t.

(** A record as the methods of [Record] build them: every phone passed
    the validation of [Phone], the birthday if any that of [Birthday]. *)
Definition wf_record (r : Record.t) : Prop :=
  Forall (fun p => Phone._validate p = Ok tt) (Record.phones r)
  /\ match Record.birthday r with
     | Some b => Birthday._validate b = Ok tt
     | None => True
     end.

(** A book as [add_record] and the commands build them: one entry per
    name, each record under its own name, each record well formed. *)
Definition wf_book (d : AddressBook.t) : Prop :=
  NoDup (PyDict.keys d)
  /\ Forall (fun kr => Record.name (snd kr) = fst kr /\ wf_record (snd kr))
            d.

(** A [datetime] object as the constructor accepts them: a date of the
    calendar and a time of day. *)
Definition valid_datetime (dt : PyDatetime.datetime) : Prop :=
  Spec.calendar_date (PyDatetime.year dt) (PyDatetime.month dt)
    (PyDatetime.day dt) = true
  /\ 0 <= PyDatetime.hour dt < 24
  /\ 0 <= PyDatetime.minute dt < 60
  /\ 0 <= PyDatetime.second dt < 60
  /\ 0 <= PyDatetime.microsecond dt < 1000000.

(** The number of days of a year. *)
Definition days_in_year (y : Z) : Z :=
  if PyDatetime.is_leap y then 366 else 365.

(** The commands after which [main] writes the file. *)
Definition saving (command : string) : bool :=
  existsb (String.eqb command)
    ["close"; "exit"; "add"; "change"; "add-birthday"].

End Inv.

(** The 256 characters. *)
Definition all_ascii : list ascii := map ascii_of_nat (seq 0 256).

(** * Properties *)

Unset Implicit Arguments.

(** ** Strings *)

Lemma append_assoc (a b c : string) : (a ++ b) ++ c = a ++ b ++ c.
Proof. induction a as [|x a IH]; simpl; [reflexivity | now rewrite IH]. Qed.

Lemma append_nil_r (a : string) : a ++ "" = a.
Proof. induction a as [|x a IH]; simpl; [reflexivity | now rewrite IH]. Qed.

Lemma length_append (a b : string) :
  String.length (a ++ b) = (String.length a + String.length b)%nat.
Proof. induction a as [|x a IH]; simpl; [reflexivity | now rewrite IH]. Qed.

Lemma substring_append (a b : string) :
  substring 0 (String.length a) (a ++ b) = a.
Proof. induction a as [|x a IH]; simpl; [now destruct b | now rewrite IH]. Qed.

Lemma append_same_length (a b x y : string) :
  String.length a = String.length b -> a ++ x = b ++ y -> a = b /\ x = y.
Proof.
  revert b; induction a as [|c a IH]; intros [|d b] Hl He; simpl in *;
    try discriminate.
  - now split.
  - injection He as -> He. injection Hl as Hl.
    destruct (IH b Hl He) as [-> ->]. now split.
Qed.

(** A property of characters that holds of the 256 of them holds of all. *)
Lemma by_cases_ascii (P : ascii -> bool) :
  List.forallb P all_ascii = true -> forall a, P a = true.
Proof.
  intros H a. rewrite forallb_forall in H. apply H.
  rewrite <- (ascii_nat_embedding a). apply in_map, in_seq.
  pose proof (nat_ascii_bounded a). lia.
Qed.

Lemma by_cases_ascii2 (P : ascii -> ascii -> bool) :
  List.forallb (fun a => List.forallb (P a) all_ascii) all_ascii = true ->
  forall a b, P a b = true.
Proof.
  intros H a b.
  apply (by_cases_ascii (P a)).
  apply (by_cases_ascii (fun a => List.forallb (P a) all_ascii) H).
Qed.

Lemma digit_not_space (c : ascii) :
  PyStr.isdigit c = true -> PyStr.isspace c = false.
Proof.
  intros H.
  pose proof (by_cases_ascii
                (fun c => implb (PyStr.isdigit c) (negb (PyStr.isspace c)))
                eq_refl c) as E.
  simpl in E. rewrite H in E. simpl in E. now destruct (PyStr.isspace c).
Qed.

(** ** The matcher *)

Section Matcher.
Import PyRe Spec.

Lemma mstate_eq (a b : mstate) :
  pos a = pos b -> rest a = rest b -> groups a = groups b -> a = b.
Proof. destruct a, b; simpl; intros; subst; reflexivity. Qed.

(** A pattern without anchors and groups matches from a position exactly
    by consuming a text of its language; position and groups play no
    part. *)
Lemma rmatch_plain (r : regex) :
  plain r = true ->
  forall st st',
    In st' (rmatch r st) <->
    exists D, lang r D /\ rest st = D ++ rest st'
              /\ pos st' = (pos st + String.length D)%nat
              /\ groups st' = groups st.
Proof.
  induction r as [|p|r1 IH1 r2 IH2|r1 IH1 r2 IH2| | |n r IH]; simpl;
    intros Hp st st'; try discriminate.
  - split.
    + intros [<-|[]]. exists "". simpl. repeat split; lia.
    + intros (D & -> & Hr & Hpos & Hg). simpl in *. left.
      apply mstate_eq; auto. lia.
  - split.
    + destruct (rest st) as [|c s] eqn:E; [intros []|].
      destruct (p c) eqn:Pc; [|intros []].
      intros [<-|[]]. exists (String c ""). simpl.
      repeat split; eauto. lia.
    + intros (D & (c & -> & Pc) & Hr & Hpos & Hg). simpl in *.
      rewrite Hr, Pc. left. apply mstate_eq; simpl; auto. lia.
  - apply andb_true_iff in Hp as [Hp1 Hp2].
    rewrite in_flat_map. split.
    + intros (st1 & H1 & H2).
      apply (IH1 Hp1) in H1 as (D1 & L1 & R1 & P1 & G1).
      apply (IH2 Hp2) in H2 as (D2 & L2 & R2 & P2 & G2).
      exists (D1 ++ D2). repeat split.
      * exists D1, D2. auto.
      * rewrite append_assoc, <- R2. exact R1.
      * rewrite length_append. lia.
      * congruence.
    + intros (D & (D1 & D2 & -> & L1 & L2) & Hr & Hpos & Hg).
      exists (MState (pos st + String.length D1) (D2 ++ rest st') (groups st)).
      split.
      * apply (IH1 Hp1). exists D1. simpl. repeat split; auto.
        now rewrite <- append_assoc.
      * apply (IH2 Hp2). exists D2. simpl. repeat split; auto.
        rewrite length_append in Hpos. lia.
  - apply andb_true_iff in Hp as [Hp1 Hp2].
    rewrite in_app_iff, (IH1 Hp1), (IH2 Hp2). split.
    + intros [(D & L & H)|(D & L & H)]; exists D; tauto.
    + intros (D & [L|L] & H); [left|right]; exists D; tauto.
Qed.

(** A group around such a pattern records the text consumed. *)
Lemma rmatch_group (n : string) (r : regex) :
  plain r = true ->
  forall st st',
    In st' (rmatch (Grp n r) st) <->
    exists D, lang r D /\ rest st = D ++ rest st'
              /\ pos st' = (pos st + String.length D)%nat
              /\ groups st' = (n, D) :: groups st.
Proof.
  intros Hp st st'. simpl. rewrite in_map_iff. split.
  - intros (st1 & <- & H1). apply (rmatch_plain _ Hp) in H1.
    destruct H1 as (D & L & R & P & G). exists D. simpl.
    repeat split; auto.
    rewrite P, R, G.
    replace (pos st + String.length D - pos st)%nat with (String.length D)
      by lia.
    now rewrite substring_append.
  - intros (D & L & R & P & G).
    exists (MState (pos st') (rest st') (groups st)). split.
    + apply mstate_eq; simpl; auto.
      rewrite P, R, G.
      replace (pos st + String.length D - pos st)%nat with (String.length D)
        by lia.
      now rewrite substring_append.
    + apply (rmatch_plain _ Hp). exists D. simpl. auto.
Qed.

Lemma lang_rep_cls (p : ascii -> bool) (n : nat) (D : string) :
  lang (rep n (Cls p)) D <->
  String.length D = n /\ PyStr.forallb p D = true.
Proof.
  revert D; induction n as [|n IH]; intros D; simpl.
  - split.
    + intros ->. now split.
    + intros [H _]. now destruct D.
  - split.
    + intros (D1 & D2 & -> & (c & -> & Pc) & L2). apply IH in L2 as [Hl Hf].
      simpl. rewrite Pc, Hl, Hf. now split.
    + intros [Hl Hf]. destruct D as [|c D]; [discriminate|].
      simpl in *. apply andb_true_iff in Hf as [Pc Hf].
      exists (String c ""), D. repeat split; eauto.
      apply IH. split; [lia | assumption].
Qed.

Lemma plain_rep_cls (p : ascii -> bool) (n : nat) :
  plain (rep n (Cls p)) = true.
Proof. induction n; simpl; auto. Qed.

Lemma hd_error_some {A} (l : list A) (x : A) :
  hd_error l = Some x -> In x l.
Proof. destruct l; simpl; [discriminate | intros [= ->]; now left]. Qed.

Lemma hd_error_in {A} (l : list A) (x : A) :
  In x l -> exists y, hd_error l = Some y.
Proof. destruct l; simpl; [intros [] | eauto]. Qed.

End Matcher.

Section MatcherSteps.
Import PyRe Spec.

Lemma in_rmatch_seq (r1 r2 : regex) (st st' : mstate) :
  In st' (rmatch (Seq r1 r2) st) <->
  exists st1, In st1 (rmatch r1 st) /\ In st' (rmatch r2 st1).
Proof. apply in_flat_map. Qed.

Lemma in_rmatch_bol (st st' : mstate) :
  In st' (rmatch Bol st) <-> pos st = 0%nat /\ st' = st.
Proof.
  simpl. destruct (Nat.eqb_spec (pos st) 0); simpl; split.
  - intros [<-|[]]. auto.
  - intros [_ ->]. now left.
  - intros [].
  - intros [H _]. contradiction.
Qed.

Lemma in_rmatch_eol (st st' : mstate) :
  In st' (rmatch Eol st) <-> at_eol (rest st) = true /\ st' = st.
Proof.
  simpl. destruct (at_eol (rest st)); simpl; split.
  - intros [<-|[]]. auto.
  - intros [_ ->]. now left.
  - intros [].
  - intros [H _]. discriminate.
Qed.

Lemma in_rmatch_chr (c : ascii) (st st' : mstate) :
  In st' (rmatch (chr c) st) <->
  rest st = String c (rest st') /\ pos st' = S (pos st)
  /\ groups st' = groups st.
Proof.
  unfold chr. rewrite (@rmatch_plain (Cls (Ascii.eqb c)) eq_refl). split.
  - intros (D & (x & -> & E) & R & P & G). apply Ascii.eqb_eq in E. subst x.
    simpl in *. repeat split; auto. lia.
  - intros (R & P & G). exists (String c ""). simpl. repeat split; auto.
    + exists c. split; auto. apply Ascii.eqb_refl.
    + lia.
Qed.

End MatcherSteps.

(** ** Phone numbers *)

Section PhoneFacts.
Import PyRe Spec.

Lemma in_Phone_pattern (value : string) (st3 : mstate) :
  In st3 (rmatch Phone.pattern (MState 0 value [])) <->
  exists D, n_digits 10 D = true /\ value = D ++ rest st3
            /\ at_eol (rest st3) = true
            /\ pos st3 = 10%nat /\ groups st3 = [].
Proof.
  unfold Phone.pattern. rewrite in_rmatch_seq. split.
  - intros (st1 & H1 & H). apply in_rmatch_bol in H1 as [_ ->].
    apply in_rmatch_seq in H as (st2 & H2 & H3).
    apply in_rmatch_eol in H3 as [E ->].
    apply (rmatch_plain _ (plain_rep_cls _ 10)) in H2.
    destruct H2 as (D & L & R & P & G).
    apply lang_rep_cls in L as [Hl Hf].
    exists D. unfold n_digits. rewrite Hl, Hf. simpl in *.
    repeat split; auto. lia.
  - intros (D & Hd & R & E & P & G).
    apply andb_true_iff in Hd as [Hl Hf]. apply Nat.eqb_eq in Hl.
    exists (MState 0 value []). split; [now apply in_rmatch_bol|].
    apply in_rmatch_seq. exists st3. split.
    + apply (rmatch_plain _ (plain_rep_cls _ 10)). exists D.
      split; [apply lang_rep_cls; auto|].
      simpl. repeat split; auto. lia.
    + now apply in_rmatch_eol.
Qed.

(** What [Phone._validate] accepts: ten digits, or ten digits and a line
    feed. *)
Lemma Phone_validate_ok (value : string) :
  Phone._validate value = Ok tt <->
  n_digits 10 value = true
  \/ exists D, n_digits 10 D = true /\ value = D ++ String PyStr.LF "".
Proof.
  unfold Phone._validate, re_match.
  split.
  - destruct (hd_error _) as [st3|] eqn:E; [intros _|discriminate].
    apply hd_error_some, in_Phone_pattern in E.
    destruct E as (D & Hd & R & E & _).
    destruct (rest st3) as [|c [|c' s]]; simpl in E; try discriminate.
    + left. now rewrite R, append_nil_r.
    + right. apply Ascii.eqb_eq in E. subst c. eauto.
  - intros H.
    assert (exists st3, In st3 (rmatch Phone.pattern (MState 0 value [])))
      as (st3 & H3).
    { destruct H as [H|(D & H & ->)].
      - exists (MState 10 "" []). apply in_Phone_pattern. exists value. simpl.
        rewrite append_nil_r. auto.
      - exists (MState 10 (String PyStr.LF "") []). apply in_Phone_pattern.
        exists D. simpl. auto. }
    apply hd_error_in in H3 as (y & ->). reflexivity.
Qed.

Lemma Phone_validate_raise (value : string) :
  Phone._validate value <> Ok tt ->
  Phone._validate value
  = Raise (ValueError "Phone number must have 10 digits.").
Proof.
  unfold Phone._validate. destruct (re_match _ _); congruence.
Qed.

Lemma Phone_new_ok (value : string) :
  Phone._validate value = Ok tt -> Phone.new value = Ok value.
Proof. intros H. unfold Phone.new, Field.new. now rewrite H. Qed.

Lemma Phone_new_raise (value : string) :
  Phone._validate value <> Ok tt ->
  Phone.new value = Raise (ValueError "Phone number must have 10 digits.").
Proof.
  intros H. unfold Phone.new, Field.new.
  now rewrite (Phone_validate_raise value H).
Qed.

End PhoneFacts.

(** ** Birthdays *)

Section StrptimeFacts.
Import PyRe Spec PyDatetime.

Lemma lang_cls2 (p q : ascii -> bool) (D : string) :
  lang (Seq (Cls p) (Cls q)) D <->
  exists a b, D = String a (String b "") /\ p a = true /\ q b = true.
Proof.
  cbn [lang]. split.
  - intros (D1 & D2 & -> & (a & -> & Pa) & (b & -> & Qb)).
    exists a, b. auto.
  - intros (a & b & -> & Pa & Qb).
    exists (String a ""), (String b ""). eauto 10.
Qed.

Lemma lang_alt (r1 r2 : regex) (D : string) :
  lang (Alt r1 r2) D <-> lang r1 D \/ lang r2 D.
Proof. reflexivity. Qed.

Ltac open_lang :=
  repeat match goal with
         | H : exists _, _ |- _ => destruct H
         | H : _ /\ _ |- _ => destruct H
         | H : _ \/ _ |- _ => destruct H
         end; subst.

Lemma lang_re_d (D : string) : lang (body re_d) D <-> d_text D = true.
Proof.
  unfold re_d, body, chr, range, digit.
  rewrite !lang_alt, !lang_cls2. cbn [lang]. split.
  - intros H. open_lang; cbv beta iota delta [d_text];
      rewrite ?orb_true_iff, ?andb_true_iff; tauto.
  - destruct D as [|a [|b [|c D]]]; cbv beta iota delta [d_text];
      try discriminate.
    + intros H. right. right. right. left. eauto.
    + rewrite !orb_true_iff, !andb_true_iff.
      intros [[[[H1 H2]|[H1 H2]]|[H1 H2]]|[H1 H2]].
      * left. eauto 10.
      * right. left. eauto 10.
      * right. right. left. eauto 10.
      * right. right. right. right. eauto 10.
Qed.

Lemma lang_re_m (M : string) : lang (body re_m) M <-> m_text M = true.
Proof.
  unfold re_m, body, chr, range, digit.
  rewrite !lang_alt, !lang_cls2. cbn [lang]. split.
  - intros H. open_lang; cbv beta iota delta [m_text];
      rewrite ?orb_true_iff, ?andb_true_iff; tauto.
  - destruct M as [|a [|b [|c M]]]; cbv beta iota delta [m_text];
      try discriminate.
    + intros H. right. right. eauto.
    + rewrite !orb_true_iff, !andb_true_iff.
      intros [[H1 H2]|[H1 H2]].
      * left. eauto 10.
      * right. left. eauto 10.
Qed.

Lemma lang_re_Y (Y : string) : lang (body re_Y) Y <-> n_digits 4 Y = true.
Proof.
  unfold re_Y, body, digit, n_digits. rewrite lang_rep_cls.
  rewrite andb_true_iff, Nat.eqb_eq. tauto.
Qed.

(** The pattern of [%d] is the days 1..31 written with one or two digits,
    or with a space and a digit. *)
Lemma d_text_spec (D : string) :
  d_text D
  = (one_or_two_digits D || space_digit D)
    && (1 <=? value D) && (value D <=? 31).
Proof.
  destruct D as [|a [|b [|c D]]]; try reflexivity.
  - apply eqb_prop.
    apply (by_cases_ascii
             (fun a => Bool.eqb (d_text (String a ""))
                ((one_or_two_digits (String a "")
                  || space_digit (String a ""))
                 && (1 <=? value (String a ""))
                 && (value (String a "") <=? 31)))
          ).
    vm_compute. reflexivity.
  - apply eqb_prop.
    apply (by_cases_ascii2
             (fun a b => Bool.eqb (d_text (String a (String b "")))
                ((one_or_two_digits (String a (String b ""))
                  || space_digit (String a (String b "")))
                 && (1 <=? value (String a (String b "")))
                 && (value (String a (String b "")) <=? 31)))
          ).
    vm_compute. reflexivity.
Qed.

Lemma m_text_spec (M : string) :
  m_text M = one_or_two_digits M && (1 <=? value M) && (value M <=? 12).
Proof.
  destruct M as [|a [|b [|c M]]]; try reflexivity.
  - apply eqb_prop.
    apply (by_cases_ascii
             (fun a => Bool.eqb (m_text (String a ""))
                (one_or_two_digits (String a "")
                 && (1 <=? value (String a ""))
                 && (value (String a "") <=? 12)))
          ).
    vm_compute. reflexivity.
  - apply eqb_prop.
    apply (by_cases_ascii2
             (fun a b => Bool.eqb (m_text (String a (String b "")))
                (one_or_two_digits (String a (String b ""))
                 && (1 <=? value (String a (String b "")))
                 && (value (String a (String b "")) <=? 12)))
          ).
    vm_compute. reflexivity.
Qed.

End StrptimeFacts.

Section StrptimeMatch.
Import PyRe Spec PyDatetime.

Lemma plain_re_d : plain (body re_d) = true. Proof. reflexivity. Qed.
Lemma plain_re_m : plain (body re_m) = true. Proof. reflexivity. Qed.
Lemma plain_re_Y : plain (body re_Y) = true. Proof. reflexivity. Qed.

(** The matches of the format's pattern from the start of [s]: a day, a
    dot, a month, a dot, a year, each in its group. *)
Lemma in_format_regex (s : string) (found : mstate) :
  In found (rmatch format_regex (MState 0 s [])) <->
  exists D M Y,
    d_text D = true /\ m_text M = true /\ n_digits 4 Y = true
    /\ s = D ++ "." ++ M ++ "." ++ Y ++ rest found
    /\ pos found = String.length (D ++ "." ++ M ++ "." ++ Y)
    /\ groups found = [("Y", Y); ("m", M); ("d", D)].
Proof.
  unfold format_regex.
  change re_d with (Grp "d" (body re_d)).
  change re_m with (Grp "m" (body re_m)).
  change re_Y with (Grp "Y" (body re_Y)).
  split.
  - intros H.
    apply in_rmatch_seq in H as (s1 & H1 & H).
    apply in_rmatch_seq in H as (s2 & H2 & H).
    apply in_rmatch_seq in H as (s3 & H3 & H).
    apply in_rmatch_seq in H as (s4 & H4 & H5).
    apply (rmatch_group _ _ plain_re_d) in H1 as (D & LD & R1 & P1 & G1).
    apply in_rmatch_chr in H2 as (R2 & P2 & G2).
    apply (rmatch_group _ _ plain_re_m) in H3 as (M & LM & R3 & P3 & G3).
    apply in_rmatch_chr in H4 as (R4 & P4 & G4).
    apply (rmatch_group _ _ plain_re_Y) in H5 as (Y & LY & R5 & P5 & G5).
    apply lang_re_d in LD. apply lang_re_m in LM. apply lang_re_Y in LY.
    exists D, M, Y. simpl in *. repeat split; auto.
    + rewrite R1, R2, R3, R4, R5. reflexivity.
    + rewrite P5, P4, P3, P2, P1.
      repeat (rewrite length_append; simpl String.length). lia.
    + rewrite G5, G4, G3, G2, G1. reflexivity.
  - intros (D & M & Y & LD & LM & LY & R & P & G).
    apply lang_re_d in LD. apply lang_re_m in LM. apply lang_re_Y in LY.
    set (n1 := String.length D).
    set (n3 := String.length M).
    apply in_rmatch_seq.
    exists (MState n1 ("." ++ M ++ "." ++ Y ++ rest found) [("d", D)]).
    split.
    { apply (rmatch_group _ _ plain_re_d). exists D. simpl. auto. }
    apply in_rmatch_seq.
    exists (MState (S n1) (M ++ "." ++ Y ++ rest found) [("d", D)]).
    split.
    { apply in_rmatch_chr. simpl. auto. }
    apply in_rmatch_seq.
    exists (MState (S n1 + n3) ("." ++ Y ++ rest found)
                   [("m", M); ("d", D)]).
    split.
    { apply (rmatch_group _ _ plain_re_m). exists M. simpl. auto. }
    apply in_rmatch_seq.
    exists (MState (S (S n1 + n3)) (Y ++ rest found) [("m", M); ("d", D)]).
    split.
    { apply in_rmatch_chr. simpl. auto. }
    apply (rmatch_group _ _ plain_re_Y). exists Y. simpl.
    repeat split; auto.
    rewrite P. repeat (rewrite length_append; simpl String.length).
    unfold n1, n3. lia.
Qed.

Lemma digit_not_dot (c : ascii) :
  PyStr.isdigit c = true -> Ascii.eqb c "." = false.
Proof.
  intros H.
  pose proof (by_cases_ascii
                (fun c => implb (PyStr.isdigit c) (negb (Ascii.eqb c ".")))
                eq_refl c) as E.
  simpl in E. rewrite H in E. simpl in E. now destruct (Ascii.eqb c ".").
Qed.

Lemma field_no_dot (D : string) :
  one_or_two_digits D || space_digit D = true -> no_dot D = true.
Proof.
  unfold no_dot.
  destruct D as [|a [|b [|c D]]];
    cbn [PyStr.forallb one_or_two_digits space_digit orb andb];
    try discriminate.
  - rewrite orb_false_r. intros H. now rewrite (digit_not_dot _ H).
  - rewrite orb_true_iff, !andb_true_iff. intros [[Ha Hb]|[Ha Hb]].
    + now rewrite (digit_not_dot _ Ha), (digit_not_dot _ Hb).
    + apply Ascii.eqb_eq in Ha. subst a.
      now rewrite (digit_not_dot _ Hb).
Qed.

(** A text is cut at its first dot in one way only. *)
Lemma cut_at_dot (D D' X X' : string) :
  no_dot D = true -> no_dot D' = true ->
  D ++ String "." X = D' ++ String "." X' -> D = D' /\ X = X'.
Proof.
  revert D'. induction D as [|a D IH]; intros [|a' D'] H H' E;
    simpl in *.
  - injection E as ->. now split.
  - injection E as <- _. discriminate.
  - injection E as -> _. discriminate.
  - injection E as -> E.
    apply andb_true_iff in H as [_ H]. apply andb_true_iff in H' as [_ H'].
    destruct (IH D' H H' E) as [-> ->]. now split.
Qed.

Lemma d_text_field (D : string) :
  d_text D = true -> one_or_two_digits D || space_digit D = true.
Proof.
  rewrite d_text_spec, !andb_true_iff. tauto.
Qed.

Lemma m_text_field (M : string) :
  m_text M = true -> one_or_two_digits M = true.
Proof.
  rewrite m_text_spec, !andb_true_iff. tauto.
Qed.

(** The first match is the only one. *)
Lemma re_match_format_regex (s : string) (found : mstate) :
  re_match format_regex s = Some found <->
  In found (rmatch format_regex (MState 0 s [])).
Proof.
  unfold re_match. split; [apply hd_error_some|].
  intros H. destruct (hd_error_in _ _ H) as (found' & E).
  rewrite E. f_equal.
  apply hd_error_some in E.
  apply in_format_regex in H as (D & M & Y & LD & LM & LY & R & P & G).
  apply in_format_regex in E as (D' & M' & Y' & LD' & LM' & LY' & R' & P' & G').
  rewrite R in R'.
  apply cut_at_dot in R' as [<- R'];
    [| now apply field_no_dot, d_text_field
     | now apply field_no_dot, d_text_field ].
  apply cut_at_dot in R' as [<- R'];
    [| apply field_no_dot; rewrite (m_text_field _ LM); reflexivity
     | apply field_no_dot; rewrite (m_text_field _ LM'); reflexivity ].
  apply append_same_length in R' as [<- R'].
  - apply mstate_eq; congruence.
  - unfold n_digits in LY, LY'.
    apply andb_true_iff in LY as [LY _]. apply andb_true_iff in LY' as [LY' _].
    apply Nat.eqb_eq in LY, LY'. congruence.
Qed.

End StrptimeMatch.

Section StrptimeResult.
Import PyRe Spec PyDatetime.

Lemma int_digits (s : string) :
  s <> "" -> PyStr.forallb PyStr.isdigit s = true ->
  PyStr.int s = Ok (value s).
Proof.
  destruct s as [|c s]; [congruence|]. intros _ H.
  unfold PyStr.int, value.
  assert (E : PyStr.lstrip (String c s) = String c s).
  { cbn [PyStr.forallb] in H. apply andb_true_iff in H as [H _].
    cbn [PyStr.lstrip]. now rewrite (digit_not_space _ H). }
  rewrite E, H. reflexivity.
Qed.

Lemma int_field (D : string) :
  one_or_two_digits D || space_digit D = true ->
  PyStr.int D = Ok (value D).
Proof.
  destruct D as [|a [|b [|c D]]];
    cbn [one_or_two_digits space_digit orb andb]; try discriminate.
  - rewrite orb_false_r. intros H. apply int_digits; [discriminate|].
    cbn [PyStr.forallb]. now rewrite H.
  - rewrite orb_true_iff, !andb_true_iff. intros [[Ha Hb]|[Ha Hb]].
    + apply int_digits; [discriminate|].
      cbn [PyStr.forallb]. now rewrite Ha, Hb.
    + apply Ascii.eqb_eq in Ha. subst a.
      change (PyStr.int (String " " (String b "")))
        with (PyStr.int (String b "")).
      change (value (String " " (String b ""))) with (value (String b "")).
      apply int_digits; [discriminate|].
      cbn [PyStr.forallb]. now rewrite Hb.
Qed.

Lemma int_year (Y : string) :
  n_digits 4 Y = true -> PyStr.int Y = Ok (value Y).
Proof.
  unfold n_digits. rewrite andb_true_iff, Nat.eqb_eq. intros [Hl Hf].
  apply int_digits; [|assumption]. intros ->. discriminate.
Qed.

Lemma new_ok (y m d : Z) (dt : datetime) :
  new y m d 0 0 0 0 = Ok dt <->
  calendar_date y m d = true /\ dt = Datetime y m d 0 0 0 0.
Proof.
  unfold new, check_date_fields, calendar_date, MINYEAR, MAXYEAR.
  destruct (1 <=? y), (y <=? 9999), (1 <=? m), (m <=? 12), (1 <=? d),
    (d <=? days_in_month y m); simpl;
    (split; [intros [= <-]; auto | intros [[=] ->]; auto]) ||
    (split; [discriminate | intros [[=] _]]).
Qed.

Lemma new_raise (y m d hh mm ss us : Z) (e : exn) :
  new y m d hh mm ss us = Raise e -> exists msg, e = ValueError msg.
Proof.
  unfold new, check_date_fields.
  repeat match goal with
         | |- context [if ?b then _ else _] => destruct b
         end; simpl; intros [= <-]; eauto.
Qed.

Lemma int_raise (s : string) (e : exn) :
  PyStr.int s = Raise e -> exists msg, e = ValueError msg.
Proof.
  unfold PyStr.int. destruct (_ || _); intros [= <-]; eauto.
Qed.

Lemma days_in_month_le (y m : Z) :
  1 <= m <= 12 -> days_in_month y m <= 31.
Proof.
  intros H. unfold days_in_month.
  destruct ((m =? 2) && is_leap y); [lia|].
  assert (m = 1 \/ m = 2 \/ m = 3 \/ m = 4 \/ m = 5 \/ m = 6 \/ m = 7
          \/ m = 8 \/ m = 9 \/ m = 10 \/ m = 11 \/ m = 12) as C by lia.
  repeat destruct C as [->|C]; try subst m; vm_compute; congruence.
Qed.

Lemma calendar_date_ranges (y m d : Z) :
  calendar_date y m d = true ->
  (1 <=? m) && (m <=? 12) = true /\ (1 <=? d) && (d <=? 31) = true.
Proof.
  unfold calendar_date. rewrite !andb_true_iff, !Z.leb_le.
  intros H. pose proof (days_in_month_le y m). lia.
Qed.

Lemma length_zero (s : string) : String.length s = 0%nat -> s = "".
Proof. now destruct s. Qed.

(** [strptime] returns exactly on the texts D.M.Y of calendar dates, and
    then the midnight of that day. *)
Lemma strptime_ok (s : string) (dt : datetime) :
  strptime s = Ok dt <->
  exists D M Y,
    s = D ++ "." ++ M ++ "." ++ Y
    /\ one_or_two_digits D || space_digit D = true
    /\ one_or_two_digits M = true
    /\ n_digits 4 Y = true
    /\ calendar_date (value Y) (value M) (value D) = true
    /\ dt = Datetime (value Y) (value M) (value D) 0 0 0 0.
Proof.
  unfold strptime. split.
  - destruct (re_match format_regex s) as [found|] eqn:E; [|discriminate].
    apply re_match_format_regex, in_format_regex in E.
    destruct E as (D & M & Y & LD & LM & LY & R & P & G).
    unfold m_end, group. rewrite G, P.
    destruct (Nat.eqb_spec (String.length s)
                (String.length (D ++ "." ++ M ++ "." ++ Y))) as [L|L];
      [|discriminate].
    assert (R0 : rest found = "").
    { apply length_zero. rewrite R in L.
      repeat (rewrite length_append in L; simpl String.length in L). lia. }
    rewrite R0, append_nil_r in R.
    change (assoc "Y" [("Y", Y); ("m", M); ("d", D)]) with Y.
    change (assoc "m" [("Y", Y); ("m", M); ("d", D)]) with M.
    change (assoc "d" [("Y", Y); ("m", M); ("d", D)]) with D.
    pose proof (d_text_field _ LD) as FD.
    pose proof (m_text_field _ LM) as FM.
    rewrite (int_year _ LY).
    assert (IM : PyStr.int M = Ok (value M))
      by (apply int_field; rewrite FM; reflexivity).
    rewrite IM, (int_field _ FD). cbn [negb rbind].
    intros H. apply new_ok in H as [C ->].
    exists D, M, Y. auto 10.
  - intros (D & M & Y & -> & FD & FM & LY & C & ->).
    destruct (calendar_date_ranges _ _ _ C) as [CM CD].
    assert (LD : d_text D = true).
    { rewrite d_text_spec, FD. apply andb_true_iff in CD as [-> ->].
      reflexivity. }
    assert (LM : m_text M = true).
    { rewrite m_text_spec, FM. apply andb_true_iff in CM as [-> ->].
      reflexivity. }
    set (s := D ++ "." ++ M ++ "." ++ Y).
    assert (E : re_match format_regex s
                = Some (MState (String.length s) ""
                               [("Y", Y); ("m", M); ("d", D)])).
    { apply re_match_format_regex, in_format_regex.
      exists D, M, Y. cbn [rest pos groups].
      rewrite append_nil_r. auto 10. }
    rewrite E. unfold m_end, group. cbn [pos groups].
    rewrite Nat.eqb_refl.
    change (assoc "Y" [("Y", Y); ("m", M); ("d", D)]) with Y.
    change (assoc "m" [("Y", Y); ("m", M); ("d", D)]) with M.
    change (assoc "d" [("Y", Y); ("m", M); ("d", D)]) with D.
    rewrite (int_year _ LY).
    assert (IM : PyStr.int M = Ok (value M))
      by (apply int_field; rewrite FM; reflexivity).
    rewrite IM, (int_field _ FD). cbn [negb rbind].
    apply new_ok. auto.
Qed.

Lemma strptime_raise (s : string) (e : exn) :
  strptime s = Raise e -> exists msg, e = ValueError msg.
Proof.
  unfold strptime.
  destruct (re_match format_regex s) as [found|]; [|intros [= <-]; eauto].
  destruct (negb _); [intros [= <-]; eauto|].
  destruct (PyStr.int (group found "Y")) eqn:EY; cbn [rbind];
    [|intros [= <-]; eapply int_raise; eauto].
  destruct (PyStr.int (group found "m")) eqn:EM; cbn [rbind];
    [|intros [= <-]; eapply int_raise; eauto].
  destruct (PyStr.int (group found "d")) eqn:ED; cbn [rbind];
    [|intros [= <-]; eapply int_raise; eauto].
  apply new_raise.
Qed.

(** What [Birthday._validate] accepts, and what it raises otherwise. *)
Lemma Birthday_validate_ok (s : string) :
  Birthday._validate s = Ok tt <-> birthday_text s.
Proof.
  unfold Birthday._validate, birthday_text. split.
  - destruct (strptime s) as [dt|e] eqn:E.
    + intros _. apply strptime_ok in E.
      destruct E as (D & M & Y & H1 & H2 & H3 & H4 & H5 & _).
      exists D, M, Y. auto.
    + destruct e; discriminate.
  - intros (D & M & Y & H1 & H2 & H3 & H4 & H5).
    assert (E : strptime s
                = Ok (Datetime (value Y) (value M) (value D) 0 0 0 0)).
    { apply strptime_ok. exists D, M, Y. auto 10. }
    now rewrite E.
Qed.

Lemma Birthday_validate_raise (s : string) :
  Birthday._validate s <> Ok tt ->
  Birthday._validate s
  = Raise (ValueError "Invalid date format. Use DD.MM.YYYY").
Proof.
  unfold Birthday._validate.
  destruct (strptime s) as [dt|e] eqn:E; [congruence|].
  destruct (strptime_raise _ _ E) as (msg & ->). reflexivity.
Qed.

End StrptimeResult.

(** C2, at the input where the code departs from it: a string of eleven
    characters, ten digits followed by a line feed, is not ten digits, and
    yet [Phone._validate] accepts it and [Phone] stores it as it is: [$]
    also matches before a line feed that ends the text. *)
Theorem Phone_accepts_trailing_line_feed :
  let value := "1234567890" ++ String PyStr.LF "" in
  Phone._validate value = Ok tt
  /\ Phone.new value = Ok value
  /\ String.length value = 11%nat
  /\ PyStr.forallb PyStr.isdigit value = false.
Proof. vm_compute. auto. Qed.

(** C3, at inputs where the code departs from it: ["1.3.1990"], whose
    day and month have one digit each, and [" 1.3.1990"], whose day is a
    space and a digit, are not of the shape DD.MM.YYYY that the message of
    the validation itself asks for, and yet [Birthday._validate] accepts
    them and [Birthday] stores them as they are: the patterns [strptime]
    takes for [%d] and [%m] do not ask for two digits. *)
Theorem Birthday_accepts_one_digit_fields :
  Birthday._validate "1.3.1990" = Ok tt
  /\ Birthday.new "1.3.1990" = Ok "1.3.1990"
  /\ Spec.ddmmyyyy "1.3.1990" = false
  /\ Birthday._validate " 1.3.1990" = Ok tt
  /\ Spec.ddmmyyyy " 1.3.1990" = false
  /\ Birthday._validate "01.03.1990" = Ok tt
  /\ Spec.ddmmyyyy "01.03.1990" = true.
Proof. vm_compute. repeat split. Qed.

(** ** Records *)

Section RecordFacts.

Lemma edit_phone_loop_found (ps : list string) (old_phone new_phone : string) :
  In old_phone ps -> Phone._validate new_phone = Ok tt ->
  exists before after,
    ps = (before ++ old_phone :: after)%list
    /\ ~ In old_phone before
    /\ Record.edit_phone_loop ps old_phone new_phone
       = Ok (before ++ new_phone :: after)%list.
Proof.
  intros Hin Hv. induction ps as [|p ps IH]; [destruct Hin|].
  cbn [Record.edit_phone_loop].
  destruct (String.eqb_spec p old_phone) as [->|Hne].
  - exists [], ps. rewrite (Phone_new_ok _ Hv). simpl. auto.
  - destruct Hin as [->|Hin]; [congruence|].
    destruct (IH Hin) as (before & after & -> & Hb & ->).
    exists (p :: before), after. simpl. repeat split; auto.
    intros [E|E]; auto.
Qed.

Lemma edit_phone_loop_absent (ps : list string) (old_phone new_phone : string) :
  ~ In old_phone ps ->
  Record.edit_phone_loop ps old_phone new_phone
  = Raise (ValueError "Phone not found.").
Proof.
  induction ps as [|p ps IH]; intros Hn; cbn [Record.edit_phone_loop];
    [reflexivity|].
  destruct (String.eqb_spec p old_phone) as [->|Hne].
  - exfalso. apply Hn. now left.
  - rewrite IH; [reflexivity|]. intros E. apply Hn. now right.
Qed.

End RecordFacts.

(** C4: when some phone of the record equals [old_phone] and [new_phone]
    is valid, [edit_phone] puts [new_phone] in the place of the first such
    phone and leaves the phones before and after it as they are; when no
    phone equals [old_phone], it raises "Phone not found." and the record
    is unchanged. *)
Theorem edit_phone_first_match (self : Record.t)
  (old_phone new_phone : string) :
  (In old_phone (Record.phones self) ->
   Phone._validate new_phone = Ok tt ->
   exists before after,
     Record.phones self = (before ++ old_phone :: after)%list
     /\ ~ In old_phone before
     /\ Record.edit_phone old_phone new_phone self
        = (Ok tt,
           Record.Make (Record.name self)
             (before ++ new_phone :: after)%list (Record.birthday self)))
  /\ (~ In old_phone (Record.phones self) ->
      Record.edit_phone old_phone new_phone self
      = (Raise (ValueError "Phone not found."), self)).
Proof.
  unfold Record.edit_phone, bind, get, lift, put. split.
  - intros Hin Hv.
    destruct (edit_phone_loop_found _ _ _ Hin Hv)
      as (before & after & E & Hb & L).
    exists before, after. rewrite L. auto.
  - intros Hn. now rewrite (edit_phone_loop_absent _ _ new_phone Hn).
Qed.

Lemma edit_phone_first_match_witness :
  let self := Record.Make "Alice"
                ["1111111111"; "2222222222"; "1111111111"]
                (Some "15.03.1990") in
  Record.edit_phone "1111111111" "3333333333" self
  = (Ok tt,
     Record.Make "Alice" ["3333333333"; "2222222222"; "1111111111"]
       (Some "15.03.1990"))
  /\ Record.edit_phone "0000000000" "3333333333" self
     = (Raise (ValueError "Phone not found."), self).
Proof.
  intros self.
  destruct (edit_phone_first_match self "1111111111" "3333333333")
    as [H1 _].
  destruct (edit_phone_first_match self "0000000000" "3333333333")
    as [_ H2].
  split.
  - destruct H1 as (before & after & E & Hn & R);
      [simpl; auto | vm_compute; reflexivity |].
    destruct before as [|x before].
    + injection E as <-. exact R.
    + exfalso. apply Hn. injection E as <- _. now left.
  - apply H2. simpl. intuition discriminate.
Defined.

(** ** Splitting a line *)

Section SplitFacts.

Lemma split_run_tokens (s tok : string) :
  Forall (fun t => t <> "") (PyStr.split_run s tok).
Proof.
  revert tok. induction s as [|c s IH]; intros tok; cbn [PyStr.split_run].
  - destruct tok; simpl; [constructor|].
    constructor; [discriminate | constructor].
  - destruct (PyStr.isspace c); [|apply IH].
    destruct tok; simpl; [apply IH|].
    constructor; [discriminate | apply IH].
Qed.

(** The tokens of a line are never empty. *)
Lemma split_tokens (s : string) : Forall (fun t => t <> "") (PyStr.split s).
Proof. apply split_run_tokens. Qed.

Lemma split_run_nil (s tok : string) :
  PyStr.split_run s tok = [] <-> tok = "" /\ Spec.blank s = true.
Proof.
  unfold Spec.blank. revert tok.
  induction s as [|c s IH]; intros tok;
    cbn [PyStr.split_run PyStr.forallb].
  - destruct tok; simpl; split; try tauto; try discriminate.
    intros [[=] _].
  - destruct (PyStr.isspace c); cbn [andb].
    + destruct tok; cbn [PyStr.is_empty].
      * rewrite IH. tauto.
      * split; [discriminate | intros [[=] _]].
    + rewrite IH. split; [|intros [_ [=]]].
      intros [E _]. destruct tok; discriminate.
Qed.

(** A line has no token exactly when it is empty or all white space. *)
Lemma split_nil (s : string) :
  PyStr.split s = [] <-> Spec.blank s = true.
Proof. unfold PyStr.split. rewrite split_run_nil. tauto. Qed.

End SplitFacts.

(** ** Dictionaries *)

Section DictFacts.
Context {V : Type}.

Lemma dict_set_new (k : string) (v : V) (d : PyDict.dict V) :
  PyDict.get k d = None -> PyDict.set k v d = (d ++ [(k, v)])%list.
Proof.
  induction d as [|[k' v'] d IH]; simpl; [reflexivity|].
  destruct (String.eqb k' k); [discriminate|].
  intros H. now rewrite IH.
Qed.

Lemma dict_set_same (k : string) (v : V) (d : PyDict.dict V) :
  PyDict.get k d = Some v -> PyDict.set k v d = d.
Proof.
  induction d as [|[k' v'] d IH]; simpl; [discriminate|].
  destruct (String.eqb k' k).
  - now intros [= ->].
  - intros H. now rewrite IH.
Qed.

Lemma dict_get_set (k : string) (v : V) (d : PyDict.dict V) :
  PyDict.get k (PyDict.set k v d) = Some v.
Proof.
  induction d as [|[k' v'] d IH]; simpl.
  - now rewrite String.eqb_refl.
  - destruct (String.eqb k' k) eqn:E; simpl; now rewrite E.
Qed.

Lemma dict_replace_set (k : string) (v : V) (d : PyDict.dict V) :
  PyDict.get k d <> None -> PyDict.replace k v d = PyDict.set k v d.
Proof.
  induction d as [|[k' v'] d IH]; simpl; [congruence|].
  destruct (String.eqb k' k); [reflexivity|].
  intros H. now rewrite IH.
Qed.

End DictFacts.

(** Where the mapping holds an entry under [name], a method called on the
    record stored there amounts to storing the new state under [name]. *)
Lemma on_record_stored {A : Type} (name : string) (record : Record.t)
  (method : M Record.t A) (data : AddressBook.t) :
  AddressBook.find name data <> None ->
  on_record name record method data
  = (fst (method record), PyDict.set name (snd (method record)) data).
Proof.
  intros Hp. unfold on_record.
  destruct (method record) as [res record']. cbn [fst snd].
  now rewrite (dict_replace_set _ _ _ Hp).
Qed.

(** ** The command loop *)

Section ProgramFacts.
Context `{Pickle}.

Lemma world_eta (w : world) : World (book w) (disk w) (stdout w) = w.
Proof. now destruct w. Qed.

Lemma step_tokens (now : PyDatetime.datetime) (line command : string)
  (args : list string) (w : world) :
  PyStr.split line = command :: args ->
  step now line w = dispatch now command args w.
Proof.
  intros E. unfold step, parse_input, bind, lift. rewrite E. reflexivity.
Qed.

Lemma loop_raise (now : PyDatetime.datetime) (line : string)
  (inputs : list (PyDatetime.datetime * string)) (w w' : world) (e : exn) :
  step now line w = (Raise e, w') ->
  loop ((now, line) :: inputs) w = (Raise e, w').
Proof. intros E. cbn [loop]. unfold bind. now rewrite E. Qed.

Lemma dispatch_change (now : PyDatetime.datetime)
  (name old_phone new_phone : string) (w : world) :
  dispatch now "change" [name; old_phone; new_phone] w
  = match AddressBook.find name (book w) with
    | Some record =>
        match Record.edit_phone old_phone new_phone record with
        | (Ok _, record') =>
            let data := PyDict.set name record' (book w) in
            (Ok false,
             World data
                   (AddressBook.save_to_file default_filename data (disk w))
                   (stdout w ++ ["None"]))
        | (Raise e, record') =>
            (Raise e,
             World (PyDict.set name record' (book w)) (disk w) (stdout w))
        end
    | None =>
        (Ok false, World (book w) (disk w) (stdout w ++ ["Contact not found."]))
    end.
Proof.
  unfold dispatch, cmd_is. cbn [String.eqb Ascii.eqb Bool.eqb orb].
  unfold bind, in_book, gets, print, save_book, ret.
  cbn [book disk stdout].
  destruct (AddressBook.find name (book w)) as [record|] eqn:Hf;
    [|reflexivity].
  rewrite on_record_stored by (cbn [book]; congruence).
  destruct (Record.edit_phone old_phone new_phone record) as [[u|e] record'];
    reflexivity.
Qed.

Lemma add_contact_body_new_invalid (name phone : string)
  (more : list string) (data : AddressBook.t) :
  phone <> "" ->
  AddressBook.find name data = None ->
  Phone._validate phone <> Ok tt ->
  add_contact_body (name :: phone :: more) data
  = (Raise (ValueError "Phone number must have 10 digits."),
     (data ++ [(name, Record.new name)])%list).
Proof.
  intros Hne Hf Hv.
  unfold add_contact_body, bind, lift, gets, ret, list_get.
  cbn [nth_error List.length Nat.ltb Nat.leb].
  rewrite Hf.
  unfold AddressBook.add_record, bind, get, put, ret.
  cbn [fst snd truthy].
  destruct phone as [|c phone]; [congruence|]. cbn [PyStr.is_empty negb].
  assert (G : AddressBook.find name
                (PyDict.set (Record.name (Record.new name))
                   (Record.new name) data)
              = Some (Record.new name)) by apply dict_get_set.
  rewrite on_record_stored by congruence.
  unfold Record.add_phone, bind, lift.
  rewrite (Phone_new_raise _ Hv).
  cbn [fst snd Record.name Record.new] in *.
  rewrite (dict_set_same _ _ _ G).
  now rewrite (dict_set_new _ _ _ Hf).
Qed.

End ProgramFacts.

Lemma edit_phone_absent (self : Record.t) (old_phone new_phone : string) :
  ~ In old_phone (Record.phones self) ->
  Record.edit_phone old_phone new_phone self
  = (Raise (ValueError "Phone not found."), self).
Proof.
  intros Hn. unfold Record.edit_phone, bind, get, lift.
  now rewrite (edit_phone_loop_absent _ _ new_phone Hn).
Qed.

(** C7: on a line [change name old_phone new_phone], when no contact has
    that name the loop prints "Contact not found." and goes on, the book
    and the files as they were; when the contact exists and none of its
    phones is [old_phone], the [ValueError] "Phone not found." of
    [edit_phone] is caught nowhere: it leaves the loop, hence [main], with
    nothing printed and the book unchanged. *)
Theorem change_not_found `{Pickle} (now : PyDatetime.datetime)
  (line name old_phone new_phone : string) (w : world)
  (inputs : list (PyDatetime.datetime * string)) :
  PyStr.split line = ["change"; name; old_phone; new_phone] ->
  (AddressBook.find name (book w) = None ->
   step now line w
   = (Ok false,
      World (book w) (disk w) (stdout w ++ ["Contact not found."])))
  /\ (forall record,
        AddressBook.find name (book w) = Some record ->
        ~ In old_phone (Record.phones record) ->
        step now line w = (Raise (ValueError "Phone not found."), w)
        /\ loop ((now, line) :: inputs) w
           = (Raise (ValueError "Phone not found."), w)).
Proof.
  intros E.
  rewrite (step_tokens now line _ _ w E), dispatch_change. split.
  - intros ->. reflexivity.
  - intros record Hf Hn.
    assert (S : step now line w
                = (Raise (ValueError "Phone not found."), w)).
    { rewrite (step_tokens now line _ _ w E), dispatch_change, Hf.
      rewrite (edit_phone_absent record old_phone new_phone Hn).
      rewrite (dict_set_same _ _ _ Hf). now rewrite world_eta. }
    split.
    + rewrite <- S. now rewrite (step_tokens now line _ _ w E), dispatch_change.
    + now apply loop_raise.
Qed.

Lemma change_not_found_witness :
  let now := PyDatetime.Datetime 2024 3 12 10 30 0 0 in
  let alice := Record.Make "Alice" ["1234567890"] None in
  let w := @World RefPickle.pickle [("Alice", alice)] (fun _ => None) [] in
  step now "change Bob 0000000000 1111111111" w
  = (Ok false, World (book w) (disk w) ["Contact not found."])
  /\ loop [(now, "change Alice 0000000000 1111111111"); (now, "hello")] w
     = (Raise (ValueError "Phone not found."), w).
Proof.
  intros now alice w.
  destruct (@change_not_found RefPickle.pickle now
              "change Bob 0000000000 1111111111"
              "Bob" "0000000000" "1111111111" w [] eq_refl) as [A _].
  destruct (@change_not_found RefPickle.pickle now
              "change Alice 0000000000 1111111111"
              "Alice" "0000000000" "1111111111" w [(now, "hello")]
              eq_refl) as [_ B].
  split.
  - apply A. reflexivity.
  - apply (B alice); [reflexivity|]. simpl. intuition discriminate.
Defined.

(** C8, at inputs where the code departs from it: the line [phone], with
    no argument, makes [args[0]] raise [IndexError] in [main] itself,
    outside any function decorated with [input_error], and the line
    [change Alice], with fewer than three arguments, makes the unpacking
    raise [ValueError] there; both exceptions leave the loop, hence
    [main], with nothing printed. *)
Theorem missing_argument_uncaught `{Pickle} (now : PyDatetime.datetime)
  (w : world) (inputs : list (PyDatetime.datetime * string)) :
  loop ((now, "phone") :: inputs) w
  = (Raise (IndexError "list index out of range"), w)
  /\ loop ((now, "change Alice") :: inputs) w
     = (Raise (ValueError "not enough values to unpack (expected 3, got 1)"),
        w).
Proof.
  split; apply loop_raise.
  - rewrite (step_tokens now "phone" "phone" [] w eq_refl).
    unfold dispatch, cmd_is. cbn [String.eqb Ascii.eqb Bool.eqb orb].
    reflexivity.
  - rewrite (step_tokens now "change Alice" "change" ["Alice"] w eq_refl).
    unfold dispatch, cmd_is. cbn [String.eqb Ascii.eqb Bool.eqb orb].
    reflexivity.
Qed.

(** The commands that go through a function decorated with [input_error]
    do report a missing argument as a message and go on. *)
Lemma decorated_commands_report_missing_argument `{Pickle}
  (now : PyDatetime.datetime) (w : world) :
  step now "add" w
  = (Ok false,
     World (book w)
           (AddressBook.save_to_file default_filename (book w) (disk w))
           (stdout w ++ ["list index out of range"]))
  /\ step now "add-birthday" w
     = (Ok false,
        World (book w)
              (AddressBook.save_to_file default_filename (book w) (disk w))
              (stdout w ++ ["list index out of range"]))
  /\ step now "show-birthday" w
     = (Ok false,
        World (book w) (disk w) (stdout w ++ ["list index out of range"])).
Proof.
  split; [|split].
  - rewrite (step_tokens now "add" "add" [] w eq_refl). reflexivity.
  - rewrite (step_tokens now "add-birthday" "add-birthday" [] w eq_refl).
    reflexivity.
  - rewrite (step_tokens now "show-birthday" "show-birthday" [] w eq_refl).
    reflexivity.
Qed.

(** The claim C9 as it is stated fails at the empty string: it fails
    validation, but [add_contact] does not validate a phone that is empty
    ([if phone:]); the record is inserted and the text returned is
    "Contact added.", not the validation error. *)
Lemma add_contact_empty_phone :
  Phone._validate "" <> Ok tt
  /\ AddressBook.find "Bob" [] = None
  /\ add_contact ["Bob"; ""] []
     = (Ok "Contact added.", [("Bob", Record.Make "Bob" [] None)])
  /\ fst (add_contact ["Bob"; ""] [])
     <> Ok "Phone number must have 10 digits.".
Proof.
  split; [vm_compute; discriminate|].
  split; [reflexivity|].
  split; [reflexivity|].
  vm_compute. discriminate.
Qed.

(** C9, amended: for every book, every name not in it and every phone
    that is not the empty string and fails validation, [add_contact] with
    that name and that phone returns the message of the validation error,
    and the book has gained, after its other entries, a record for that
    name with no phone and no birthday, which [find] returns. *)
Theorem add_contact_keeps_record_on_invalid_phone (name phone : string)
  (more : list string) (data : AddressBook.t) :
  phone <> "" ->
  AddressBook.find name data = None ->
  Phone._validate phone <> Ok tt ->
  let data' := (data ++ [(name, Record.Make name [] None)])%list in
  add_contact (name :: phone :: more) data
  = (Ok "Phone number must have 10 digits.", data')
  /\ AddressBook.find name data' = Some (Record.Make name [] None).
Proof.
  intros Hne Hf Hv data'. split.
  - unfold add_contact, input_error.
    now rewrite (add_contact_body_new_invalid name phone more data
                   Hne Hf Hv).
  - unfold data'.
    rewrite <- (dict_set_new name (Record.Make name [] None) data Hf).
    apply dict_get_set.
Qed.

Lemma add_contact_keeps_record_on_invalid_phone_witness :
  let alice := Record.Make "Alice" ["1234567890"] None in
  let data' := [("Alice", alice); ("Bob", Record.Make "Bob" [] None)] in
  add_contact ["Bob"; "12345"] [("Alice", alice)]
  = (Ok "Phone number must have 10 digits.", data')
  /\ AddressBook.find "Bob" data' = Some (Record.Make "Bob" [] None).
Proof.
  intros alice data'.
  apply (add_contact_keeps_record_on_invalid_phone "Bob" "12345" []
           [("Alice", alice)]).
  - discriminate.
  - reflexivity.
  - vm_compute. discriminate.
Defined.

(** X26: on a line [add name phone ...] where no contact has that name and
    [phone] fails validation, [add_contact] returns the message of the
    validation error, and the book has gained, after its other entries, a
    record for [name] with no phone and no birthday; the loop prints the
    message, saves that book and goes on. *)
Theorem add_keeps_record_on_invalid_phone `{Pickle}
  (now : PyDatetime.datetime) (line name phone : string)
  (more : list string) (w : world) :
  PyStr.split line = "add" :: name :: phone :: more ->
  AddressBook.find name (book w) = None ->
  Phone._validate phone <> Ok tt ->
  let data := (book w ++ [(name, Record.Make name [] None)])%list in
  add_contact (name :: phone :: more) (book w)
  = (Ok "Phone number must have 10 digits.", data)
  /\ AddressBook.find name data = Some (Record.Make name [] None)
  /\ step now line w
     = (Ok false,
        World data
              (AddressBook.save_to_file default_filename data (disk w))
              (stdout w ++ ["Phone number must have 10 digits."])).
Proof.
  intros E Hf Hv data.
  assert (Hne : phone <> "").
  { pose proof (split_tokens line) as T. rewrite E in T.
    inversion T as [|? ? _ T1]. inversion T1 as [|? ? _ T2].
    now inversion T2. }
  assert (A : add_contact (name :: phone :: more) (book w)
              = (Ok "Phone number must have 10 digits.", data)).
  { unfold add_contact, input_error.
    now rewrite (add_contact_body_new_invalid name phone more (book w)
                   Hne Hf Hv). }
  split; [exact A|]. split.
  - unfold data. rewrite <- (dict_set_new name (Record.Make name [] None)
                               (book w) Hf).
    apply dict_get_set.
  - rewrite (step_tokens now line _ _ w E).
    unfold dispatch, cmd_is. cbn [String.eqb Ascii.eqb Bool.eqb orb].
    unfold bind, in_book. rewrite A. reflexivity.
Qed.

Lemma add_keeps_record_on_invalid_phone_witness :
  let now := PyDatetime.Datetime 2024 3 12 10 30 0 0 in
  let w := @World RefPickle.pickle [] (fun _ => None) [] in
  let data := [("Bob", Record.Make "Bob" [] None)] in
  add_contact ["Bob"; "12345"] (book w)
  = (Ok "Phone number must have 10 digits.", data)
  /\ AddressBook.find "Bob" data = Some (Record.Make "Bob" [] None)
  /\ step now "add Bob 12345" w
     = (Ok false,
        World data
              (AddressBook.save_to_file default_filename data (disk w))
              ["Phone number must have 10 digits."]).
Proof.
  intros now w data.
  apply (@add_keeps_record_on_invalid_phone RefPickle.pickle now
           "add Bob 12345" "Bob" "12345" [] w).
  - reflexivity.
  - reflexivity.
  - vm_compute. discriminate.
Defined.

(** C10: on a line with no token, that is an empty line or one of white
    space only, [parse_input] raises [IndexError]; nothing catches it: it
    leaves the loop, hence [main], with nothing printed and no further
    line read. *)
Theorem blank_line_ends_process `{Pickle} (line : string) :
  Spec.blank line = true ->
  PyStr.split line = []
  /\ parse_input line = Raise (IndexError "list index out of range")
  /\ forall now w inputs,
       step now line w = (Raise (IndexError "list index out of range"), w)
       /\ loop ((now, line) :: inputs) w
          = (Raise (IndexError "list index out of range"), w)
       /\ (disk w default_filename = None ->
           main (disk w) ((now, line) :: inputs)
           = (Raise (IndexError "list index out of range"),
              World AddressBook.empty (disk w)
                    ["Welcome to the assistant bot!"])).
Proof.
  intros B. apply split_nil in B.
  assert (P : parse_input line
              = Raise (IndexError "list index out of range")).
  { unfold parse_input. now rewrite B. }
  split; [exact B|]. split; [exact P|].
  intros now w inputs.
  assert (S : step now line w
              = (Raise (IndexError "list index out of range"), w)).
  { unfold step, bind, lift. now rewrite P. }
  split; [exact S|]. split; [now apply loop_raise|].
  intros F. unfold main, main_body, bind, load_book.
  cbn [book disk stdout]. unfold AddressBook.load_from_file.
  rewrite F. cbn [put print app].
  cbn [loop]. unfold bind, step, lift. now rewrite P.
Qed.

Lemma blank_line_ends_process_witness :
  let now := PyDatetime.Datetime 2024 3 12 10 30 0 0 in
  let w := @World RefPickle.pickle [] (fun _ => None) [] in
  parse_input "   " = Raise (IndexError "list index out of range")
  /\ loop [(now, "   "); (now, "hello")] w
     = (Raise (IndexError "list index out of range"), w)
  /\ parse_input "" = Raise (IndexError "list index out of range").
Proof.
  intros now w.
  destruct (@blank_line_ends_process RefPickle.pickle "   " eq_refl)
    as (_ & P & L).
  destruct (@blank_line_ends_process RefPickle.pickle "" eq_refl)
    as (_ & P' & _).
  destruct (L now w [(now, "hello")]) as (_ & L' & _).
  auto.
Defined.

(** ** The reference serialisation round-trips *)

Module RefPickleFacts.
Import RefPickle.

Lemma dec_enc_nat (n : nat) (r : list ascii) :
  dec_nat (enc_nat n ++ r) = Some (n, r).
Proof.
  induction n as [|n IH]; simpl; [reflexivity|]. now rewrite IH.
Qed.

Lemma length_list_ascii (s : string) :
  List.length (list_ascii_of_string s) = String.length s.
Proof. induction s as [|c s IH]; simpl; [reflexivity | now rewrite IH]. Qed.

Lemma dec_enc_str (s : string) (r : list ascii) :
  dec_str (enc_str s ++ r) = Some (s, r).
Proof.
  unfold dec_str, enc_str. rewrite <- app_assoc, dec_enc_nat.
  rewrite <- length_list_ascii.
  assert (L : (List.length (list_ascii_of_string s)
               <=? List.length (list_ascii_of_string s ++ r))%nat = true).
  { apply Nat.leb_le. rewrite length_app. lia. }
  rewrite L.
  rewrite firstn_app, Nat.sub_diag, firstn_all, firstn_O, app_nil_r.
  rewrite skipn_app, Nat.sub_diag, skipn_all, skipn_O.
  now rewrite string_of_list_ascii_of_string.
Qed.

Section Items.
Context {A : Type} (enc : A -> list ascii)
  (dec : list ascii -> option (A * list ascii)).
Hypothesis dec_enc : forall a r, dec (enc a ++ r) = Some (a, r).

Lemma dec_enc_items (l : list A) (r : list ascii) :
  dec_items dec (List.length l) (flat_map enc l ++ r) = Some (l, r).
Proof.
  induction l as [|a l IH]; simpl; [reflexivity|].
  now rewrite <- app_assoc, dec_enc, IH.
Qed.

Lemma dec_enc_list (l : list A) (r : list ascii) :
  dec_list dec (enc_list enc l ++ r) = Some (l, r).
Proof.
  unfold dec_list, enc_list.
  now rewrite <- app_assoc, dec_enc_nat, dec_enc_items.
Qed.

Lemma dec_enc_option (o : option A) (r : list ascii) :
  dec_option dec (enc_option enc o ++ r) = Some (o, r).
Proof.
  destruct o as [a|]; simpl; [now rewrite dec_enc | reflexivity].
Qed.

End Items.

Lemma dec_enc_record (x : Record.t) (r : list ascii) :
  dec_record (enc_record x ++ r) = Some (x, r).
Proof.
  unfold dec_record, enc_record. rewrite <- !app_assoc.
  rewrite dec_enc_str, (dec_enc_list _ _ dec_enc_str),
    (dec_enc_option _ _ dec_enc_str).
  now destruct x.
Qed.

Lemma dec_enc_entry (e : string * Record.t) (r : list ascii) :
  dec_entry (enc_entry e ++ r) = Some (e, r).
Proof.
  unfold dec_entry, enc_entry. rewrite <- app_assoc.
  rewrite dec_enc_str, dec_enc_record. now destruct e.
Qed.

Lemma loads_dumps (d : book_data) : loads (dumps d) = Ok d.
Proof.
  unfold loads, dumps.
  rewrite <- (app_nil_r (enc_list enc_entry d)).
  now rewrite (dec_enc_list _ _ dec_enc_entry).
Qed.

Lemma round_trip : PickleRoundTrip pickle.
Proof. exact loads_dumps. Qed.

End RefPickleFacts.

(** ** Saving and loading *)

(** C1: whatever the files and whatever the address book that loads,
    [save_to_file] of a mapping followed by [load_from_file] of the same
    file name succeeds and leaves in the loading book a mapping equal to
    the saved one: the same keys, in the same order, and under each key a
    record with the same name, phones and birthday.  [pickle] enters by
    its round-trip property alone. *)
Theorem save_then_load `{P : Pickle} (RT : PickleRoundTrip P)
  (data fresh : AddressBook.t) (filename : string) (fs : files) :
  exists loaded,
    AddressBook.load_from_file filename
      (AddressBook.save_to_file filename data fs) fresh
    = (Ok tt, loaded)
    /\ loaded = data
    /\ PyDict.keys loaded = PyDict.keys data
    /\ forall name,
         match AddressBook.find name loaded, AddressBook.find name data with
         | Some r, Some r' =>
             Record.name r = Record.name r'
             /\ Record.phones r = Record.phones r'
             /\ Record.birthday r = Record.birthday r'
         | None, None => True
         | _, _ => False
         end.
Proof.
  exists data.
  unfold AddressBook.load_from_file, AddressBook.save_to_file, write_file.
  rewrite String.eqb_refl. unfold bind, lift, put. rewrite RT.
  repeat split.
  intros name. destruct (AddressBook.find name data); auto.
Qed.

Lemma save_then_load_witness :
  let data := [("Alice", Record.Make "Alice" ["1234567890"; "1234567890"]
                           (Some "15.03.1990"));
               ("Bob", Record.Make "Bob" [] None)] in
  exists loaded,
    AddressBook.load_from_file "addressbook.pkl"
      (AddressBook.save_to_file (H := RefPickle.pickle) "addressbook.pkl"
         data (fun _ => None))
      AddressBook.empty
    = (Ok tt, loaded)
    /\ loaded = data.
Proof.
  intros data.
  destruct (@save_then_load RefPickle.pickle RefPickleFacts.round_trip
              data AddressBook.empty "addressbook.pkl" (fun _ => None))
    as (loaded & E & L & _).
  exists loaded. split; [exact E | exact L].
Defined.

(** ** Birthdays in the book *)

(** What the two birthday queries do on every input: the list returned is
    the records of the book, in the order of the book, whose condition
    evaluates to true, none of them without a birthday; and a record
    without a birthday has no day count. *)
Lemma comprehension_filter (cond : Record.t -> result bool)
  (records l : list Record.t) :
  AddressBook.comprehension cond records = Ok l ->
  l = filter (fun r => match cond r with Ok true => true | _ => false end)
        records.
Proof.
  revert l. induction records as [|r records IH]; intros l;
    cbn [AddressBook.comprehension filter].
  - now intros [= <-].
  - destruct (cond r) as [keep|e]; cbn [rbind]; [|discriminate].
    destruct (AddressBook.comprehension cond records) as [l'|e];
      cbn [rbind]; [|discriminate].
    intros [= <-]. rewrite (IH l' eq_refl). now destruct keep.
Qed.

Lemma upcoming_has_birthday (today next_week : PyDatetime.datetime)
  (record : Record.t) :
  AddressBook.upcoming today next_week record = Ok true ->
  Record.birthday record <> None.
Proof.
  unfold AddressBook.upcoming.
  destruct (Record.birthday record); [discriminate | intros [=]].
Qed.

Lemma get_upcoming_birthdays_filter (today : PyDatetime.datetime)
  (data : AddressBook.t) (l : list Record.t) :
  AddressBook.get_upcoming_birthdays today data = Ok l ->
  exists next_week,
    PyDatetime.add_days today 7 = Ok next_week
    /\ l = filter
             (fun r =>
                match AddressBook.upcoming today next_week r with
                | Ok true => true
                | _ => false
                end)
             (PyDict.values data)
    /\ Forall (fun r => Record.birthday r <> None) l.
Proof.
  unfold AddressBook.get_upcoming_birthdays.
  destruct (PyDatetime.add_days today 7) as [next_week|e]; cbn [rbind];
    [|discriminate].
  intros E. apply comprehension_filter in E.
  exists next_week. split; [reflexivity|]. split; [exact E|].
  rewrite E. apply Forall_forall. intros r Hr.
  apply filter_In in Hr as [_ Hr].
  apply (upcoming_has_birthday today next_week).
  destruct (AddressBook.upcoming today next_week r) as [[|]|];
    congruence.
Qed.

Lemma days_to_birthday_without_birthday (today : PyDatetime.datetime)
  (self : Record.t) :
  Record.birthday self = None ->
  Record.days_to_birthday today self = Ok None.
Proof. unfold Record.days_to_birthday. now intros ->. Qed.


(** C5, at inputs where the code departs from it.  [datetime.today()]
    carries the time of day and the birthday of this year is a midnight:
    at 10:30 on 15 March 2024 a birthday of 15 March is before [today] and
    the record is left out, although the birthday falls on the reference
    date; the same call at midnight sharp returns it.  And with a birthday
    of 29 February in the book the call made in 2023 returns no list at
    all: [replace] raises. *)
Theorem upcoming_misses_birthday_of_today :
  let alice := Record.Make "Alice" ["1234567890"] (Some "15.03.1990") in
  let leap := Record.Make "Leap" [] (Some "29.02.2000") in
  AddressBook.get_upcoming_birthdays
    (PyDatetime.Datetime 2024 3 15 10 30 0 0) [("Alice", alice)]
  = Ok []
  /\ AddressBook.get_upcoming_birthdays
       (PyDatetime.Datetime 2024 3 15 0 0 0 0) [("Alice", alice)]
     = Ok [alice]
  /\ AddressBook.get_upcoming_birthdays
       (PyDatetime.Datetime 2023 2 25 10 30 0 0)
       [("Alice", alice); ("Leap", leap)]
     = Raise (ValueError "day is out of range for month").
Proof. vm_compute. auto. Qed.

(** C6, at inputs where the code departs from it.  For the same reason,
    at 10:30 on 15 March 2024 a birthday of 15 March counts as passed:
    [days_to_birthday] returns the 364 whole days to 15 March 2025 where
    the claim says 0; at midnight sharp it returns 0.  Three days before,
    at 10:30 on 12 March, it returns 2. *)
Theorem days_to_birthday_of_today :
  let alice := Record.Make "Alice" ["1234567890"] (Some "15.03.1990") in
  Record.days_to_birthday (PyDatetime.Datetime 2024 3 15 10 30 0 0) alice
  = Ok (Some 364)
  /\ Record.days_to_birthday (PyDatetime.Datetime 2024 3 15 0 0 0 0) alice
     = Ok (Some 0)
  /\ Record.days_to_birthday (PyDatetime.Datetime 2024 3 12 10 30 0 0) alice
     = Ok (Some 2).
Proof. vm_compute. auto. Qed.

(** * Further properties of the module *)

(** ** The mapping of the address book *)

Section BookFacts.

Lemma dict_get_none {V : Type} (k : string) (d : PyDict.dict V) :
  PyDict.get k d = None <-> ~ In k (PyDict.keys d).
Proof.
  induction d as [|[k' v] d IH]; simpl; [tauto|].
  destruct (String.eqb_spec k' k) as [->|Hne].
  - split; [discriminate | intros Hn; exfalso; apply Hn; now left].
  - rewrite IH. tauto.
Qed.

Lemma dict_get_set_other {V : Type} (k k' : string) (v : V)
  (d : PyDict.dict V) :
  k' <> k -> PyDict.get k' (PyDict.set k v d) = PyDict.get k' d.
Proof.
  intros Hne. induction d as [|[k0 v0] d IH]; simpl.
  - destruct (String.eqb_spec k k'); congruence.
  - destruct (String.eqb_spec k0 k) as [->|H0]; simpl.
    + destruct (String.eqb_spec k k'); congruence.
    + now rewrite IH.
Qed.

Lemma dict_keys_set {V : Type} (k : string) (v : V) (d : PyDict.dict V) :
  PyDict.keys (PyDict.set k v d)
  = if PyDict.contains k d then PyDict.keys d
    else (PyDict.keys d ++ [k])%list.
Proof.
  unfold PyDict.contains.
  induction d as [|[k0 v0] d IH]; simpl; [reflexivity|].
  destruct (String.eqb_spec k0 k) as [->|H0]; simpl; [reflexivity|].
  rewrite IH. now destruct (PyDict.get k d).
Qed.

Lemma dict_get_del_other {V : Type} (k k' : string) (d : PyDict.dict V) :
  k' <> k -> PyDict.get k' (PyDict.del k d) = PyDict.get k' d.
Proof.
  intros Hne. induction d as [|[k0 v0] d IH]; simpl; [reflexivity|].
  destruct (String.eqb_spec k0 k) as [->|H0]; simpl.
  - destruct (String.eqb_spec k k'); congruence.
  - now rewrite IH.
Qed.

Lemma dict_get_del {V : Type} (k : string) (d : PyDict.dict V) :
  NoDup (PyDict.keys d) -> PyDict.get k (PyDict.del k d) = None.
Proof.
  induction d as [|[k0 v0] d IH]; simpl; [reflexivity|].
  intros Hd. inversion Hd as [|? ? Hn Hd']; subst.
  destruct (String.eqb_spec k0 k) as [->|H0]; simpl.
  - now apply dict_get_none.
  - destruct (String.eqb_spec k0 k); [congruence | now apply IH].
Qed.

Lemma dict_keys_del {V : Type} (k : string) (d : PyDict.dict V) :
  forall k', In k' (PyDict.keys (PyDict.del k d)) -> In k' (PyDict.keys d).
Proof.
  induction d as [|[k0 v0] d IH]; simpl; [tauto|].
  destruct (String.eqb k0 k); simpl; intros k'; [auto|].
  intros [E|E]; auto.
Qed.

Lemma dict_nodup_del {V : Type} (k : string) (d : PyDict.dict V) :
  NoDup (PyDict.keys d) -> NoDup (PyDict.keys (PyDict.del k d)).
Proof.
  induction d as [|[k0 v0] d IH]; simpl; [constructor|].
  intros Hd. inversion Hd as [|? ? Hn Hd']; subst.
  destruct (String.eqb k0 k); simpl; [assumption|].
  constructor; [|now apply IH].
  intros E. apply Hn. now apply (dict_keys_del k d).
Qed.

Lemma dict_nodup_set {V : Type} (k : string) (v : V) (d : PyDict.dict V) :
  NoDup (PyDict.keys d) -> NoDup (PyDict.keys (PyDict.set k v d)).
Proof.
  intros Hd. rewrite dict_keys_set. unfold PyDict.contains.
  destruct (PyDict.get k d) eqn:E; [assumption|].
  apply dict_get_none in E.
  apply NoDup_app; [assumption | repeat constructor; intros [] |].
  intros x Hx [<-|[]]. contradiction.
Qed.

End BookFacts.

(** X1: a record stored with [add_record] is what [find] returns for its
    name, and [find] for any other name returns what it returned
    before. *)
Theorem add_record_find (record : Record.t) (data : AddressBook.t) :
  exists data',
    AddressBook.add_record record data = (Ok tt, data')
    /\ AddressBook.find (Record.name record) data' = Some record
    /\ forall name,
         name <> Record.name record ->
         AddressBook.find name data' = AddressBook.find name data.
Proof.
  exists (PyDict.set (Record.name record) record data).
  unfold AddressBook.add_record, AddressBook.find, bind, get, put.
  split; [reflexivity|]. split; [apply dict_get_set|].
  intros name Hne. now apply dict_get_set_other.
Qed.

(** X2: [add_record] keeps one entry per name: under a name already
    present the new record takes the place of the old one, the names and
    their order as they were; under a new name the entry goes last. *)
Theorem add_record_keys (record : Record.t) (data : AddressBook.t) :
  NoDup (PyDict.keys data) ->
  let data' := snd (AddressBook.add_record record data) in
  NoDup (PyDict.keys data')
  /\ (AddressBook.find (Record.name record) data <> None ->
      PyDict.keys data' = PyDict.keys data)
  /\ (AddressBook.find (Record.name record) data = None ->
      data' = (data ++ [(Record.name record, record)])%list).
Proof.
  intros Hd. unfold AddressBook.add_record, AddressBook.find, bind, get, put.
  cbn [snd]. split; [now apply dict_nodup_set|]. split.
  - intros Hf. rewrite dict_keys_set. unfold PyDict.contains.
    now destruct (PyDict.get (Record.name record) data).
  - apply dict_set_new.
Qed.

Lemma add_record_keys_witness :
  let alice := Record.Make "Alice" ["1234567890"] None in
  let alice' := Record.Make "Alice" [] (Some "15.03.1990") in
  let bob := Record.Make "Bob" [] None in
  let data := [("Alice", alice); ("Bob", bob)] in
  PyDict.keys (snd (AddressBook.add_record alice' data)) = ["Alice"; "Bob"]
  /\ snd (AddressBook.add_record bob [("Alice", alice)]) = data.
Proof.
  intros alice alice' bob data.
  assert (N : NoDup (PyDict.keys data)).
  { repeat constructor; simpl; intuition discriminate. }
  assert (N1 : NoDup (PyDict.keys [("Alice", alice)])).
  { repeat constructor; simpl; intuition. }
  destruct (add_record_keys alice' data N) as (_ & K & _).
  destruct (add_record_keys bob [("Alice", alice)] N1) as (_ & _ & A).
  split.
  - apply K. discriminate.
  - apply A. reflexivity.
Defined.

(** X3: [delete] of a name that is absent raises [KeyError] and leaves
    the book as it was; of a name that is present it returns, after which
    [find] gives nothing for that name and what it gave before for every
    other, the names left being still one per entry. *)
Theorem delete_find (name : string) (data : AddressBook.t) :
  NoDup (PyDict.keys data) ->
  (AddressBook.find name data = None ->
   AddressBook.delete name data
   = (Raise (KeyError "Contact not found."), data))
  /\ (AddressBook.find name data <> None ->
      exists data',
        AddressBook.delete name data = (Ok tt, data')
        /\ AddressBook.find name data' = None
        /\ NoDup (PyDict.keys data')
        /\ forall other,
             other <> name ->
             AddressBook.find other data' = AddressBook.find other data).
Proof.
  intros Hd.
  unfold AddressBook.delete, AddressBook.find, bind, get, put, raise,
    PyDict.contains.
  split.
  - now intros ->.
  - intros Hf. exists (PyDict.del name data).
    destruct (PyDict.get name data); [|congruence].
    split; [reflexivity|]. split; [now apply dict_get_del|].
    split; [now apply dict_nodup_del|].
    intros other Hne. now apply dict_get_del_other.
Qed.

Lemma delete_find_witness :
  let alice := Record.Make "Alice" ["1234567890"] None in
  let bob := Record.Make "Bob" [] None in
  let data := [("Alice", alice); ("Bob", bob)] in
  AddressBook.delete "Carol" data
  = (Raise (KeyError "Contact not found."), data)
  /\ exists data',
       AddressBook.delete "Alice" data = (Ok tt, data')
       /\ AddressBook.find "Alice" data' = None
       /\ AddressBook.find "Bob" data' = Some bob.
Proof.
  intros alice bob data.
  assert (N : NoDup (PyDict.keys data)).
  { repeat constructor; simpl; intuition discriminate. }
  destruct (delete_find "Carol" data N) as [A _].
  destruct (delete_find "Alice" data N) as [_ B].
  split; [apply A; reflexivity|].
  destruct B as (data' & E & F & _ & O); [discriminate|].
  exists data'. split; [exact E|]. split; [exact F|].
  rewrite (O "Bob"); [reflexivity | discriminate].
Defined.

(** ** Phones and birthday of a record *)

Section RecordMoreFacts.

Lemma filter_not_in (phone : string) (ps : list string) :
  ~ In phone ps ->
  filter (fun p => negb (String.eqb p phone)) ps = ps.
Proof.
  induction ps as [|p ps IH]; simpl; [reflexivity|]. intros Hn.
  destruct (String.eqb_spec p phone) as [->|Hne]; simpl.
  - exfalso. apply Hn. now left.
  - rewrite IH; [reflexivity|]. tauto.
Qed.

Lemma filter_removed (phone : string) (ps : list string) :
  ~ In phone (filter (fun p => negb (String.eqb p phone)) ps).
Proof.
  intros Hin. apply filter_In in Hin as [_ H].
  now rewrite String.eqb_refl in H.
Qed.

Lemma Birthday_new_ok (value : string) :
  Birthday._validate value = Ok tt -> Birthday.new value = Ok value.
Proof. intros H. unfold Birthday.new, Field.new. now rewrite H. Qed.

Lemma Birthday_new_raise (value : string) :
  Birthday._validate value <> Ok tt ->
  Birthday.new value = Raise (ValueError "Invalid date format. Use DD.MM.YYYY").
Proof.
  intros H. unfold Birthday.new, Field.new.
  now rewrite (Birthday_validate_raise value H).
Qed.

End RecordMoreFacts.

(** X4: [remove_phone] never raises; afterwards no phone of the record
    equals the one given, the phones that differ from it are kept in
    their order, name and birthday are as they were; a record without
    that phone is left unchanged, and removing twice is removing once. *)
Theorem remove_phone_all (self : Record.t) (phone : string) :
  exists self',
    Record.remove_phone phone self = (Ok tt, self')
    /\ ~ In phone (Record.phones self')
    /\ Record.phones self'
       = filter (fun p => negb (String.eqb p phone)) (Record.phones self)
    /\ Record.name self' = Record.name self
    /\ Record.birthday self' = Record.birthday self
    /\ (~ In phone (Record.phones self) -> self' = self)
    /\ Record.remove_phone phone self' = (Ok tt, self').
Proof.
  unfold Record.remove_phone, bind, get, put.
  eexists. split; [reflexivity|]. cbn [Record.phones Record.set_phones
    Record.name Record.birthday].
  split; [apply filter_removed|]. split; [reflexivity|].
  - split; [reflexivity|]. split; [reflexivity|]. split.
    + intros Hn. rewrite (filter_not_in _ _ Hn). now destruct self.
    + unfold Record.set_phones. cbn [Record.phones Record.name
        Record.birthday].
      rewrite (filter_not_in phone (filter _ _) (filter_removed _ _)).
      reflexivity.
Qed.

(** X5: [add_phone] with a number that passes validation puts it after
    the phones of the record, which stay as they are (a number already
    there is added again), name and birthday unchanged; with a number
    that fails validation it raises the validation error and the record
    is unchanged. *)
Theorem add_phone_appends (self : Record.t) (phone : string) :
  (Phone._validate phone = Ok tt ->
   Record.add_phone phone self
   = (Ok tt,
      Record.Make (Record.name self) (Record.phones self ++ [phone])
                  (Record.birthday self)))
  /\ (Phone._validate phone <> Ok tt ->
      Record.add_phone phone self
      = (Raise (ValueError "Phone number must have 10 digits."), self)).
Proof.
  unfold Record.add_phone, bind, lift, get, put. split; intros Hv.
  - now rewrite (Phone_new_ok _ Hv).
  - now rewrite (Phone_new_raise _ Hv).
Qed.

Lemma add_phone_appends_witness :
  let self := Record.Make "Alice" ["1234567890"] (Some "15.03.1990") in
  Record.add_phone "1234567890" self
  = (Ok tt, Record.Make "Alice" ["1234567890"; "1234567890"]
                        (Some "15.03.1990"))
  /\ Record.add_phone "12345" self
     = (Raise (ValueError "Phone number must have 10 digits."), self).
Proof.
  intros self.
  destruct (add_phone_appends self "1234567890") as [A _].
  destruct (add_phone_appends self "12345") as [_ B].
  split.
  - apply A. vm_compute. reflexivity.
  - apply B. vm_compute. discriminate.
Defined.

(** X6: [add_birthday] with a text that passes validation sets the
    birthday, in the place of an earlier one if any, after which
    [get_birthday] returns that very text; name and phones are unchanged.
    With a text that fails validation it raises the validation error and
    the record keeps the birthday it had. *)
Theorem add_birthday_get_birthday (self : Record.t) (birthday : string) :
  (Birthday._validate birthday = Ok tt ->
   exists self',
     Record.add_birthday birthday self = (Ok tt, self')
     /\ Record.get_birthday self' = birthday
     /\ Record.name self' = Record.name self
     /\ Record.phones self' = Record.phones self)
  /\ (Birthday._validate birthday <> Ok tt ->
      Record.add_birthday birthday self
      = (Raise (ValueError "Invalid date format. Use DD.MM.YYYY"), self)).
Proof.
  unfold Record.add_birthday, bind, lift, get, put. split; intros Hv.
  - rewrite (Birthday_new_ok _ Hv). eexists. split; [reflexivity|].
    now cbn.
  - now rewrite (Birthday_new_raise _ Hv).
Qed.

Lemma add_birthday_get_birthday_witness :
  let self := Record.Make "Alice" ["1234567890"] (Some "15.03.1990") in
  (exists self',
     Record.add_birthday "01.01.2000" self = (Ok tt, self')
     /\ Record.get_birthday self' = "01.01.2000"
     /\ Record.name self' = "Alice"
     /\ Record.phones self' = ["1234567890"])
  /\ Record.add_birthday "2000-01-01" self
     = (Raise (ValueError "Invalid date format. Use DD.MM.YYYY"), self).
Proof.
  intros self.
  destruct (add_birthday_get_birthday self "01.01.2000") as [A _].
  destruct (add_birthday_get_birthday self "2000-01-01") as [_ B].
  split.
  - apply A. vm_compute. reflexivity.
  - apply B. vm_compute. discriminate.
Defined.

(** X7: [edit_phone] validates the new number only once a phone equal to
    the old one is found: when there is one and the new number fails
    validation, the validation error is raised and the record is
    unchanged. *)
Theorem edit_phone_invalid_new (self : Record.t)
  (old_phone new_phone : string) :
  In old_phone (Record.phones self) ->
  Phone._validate new_phone <> Ok tt ->
  Record.edit_phone old_phone new_phone self
  = (Raise (ValueError "Phone number must have 10 digits."), self).
Proof.
  intros Hin Hv. unfold Record.edit_phone, bind, get, lift.
  assert (L : Record.edit_phone_loop (Record.phones self) old_phone new_phone
              = Raise (ValueError "Phone number must have 10 digits.")).
  { induction (Record.phones self) as [|p ps IH]; [destruct Hin|].
    cbn [Record.edit_phone_loop].
    destruct (String.eqb_spec p old_phone) as [->|Hne].
    - now rewrite (Phone_new_raise _ Hv).
    - destruct Hin as [->|Hin]; [congruence|]. now rewrite (IH Hin). }
  now rewrite L.
Qed.

Lemma edit_phone_invalid_new_witness :
  let self := Record.Make "Alice" ["1234567890"] None in
  Record.edit_phone "1234567890" "12345" self
  = (Raise (ValueError "Phone number must have 10 digits."), self).
Proof.
  intros self. apply edit_phone_invalid_new.
  - simpl. auto.
  - vm_compute. discriminate.
Defined.

(** X8: on the texts of 8-bit characters, where [\d] matches the
    characters ['0'..'9'] and no other, [Phone] accepts every text of
    exactly ten of them and stores it as it is; a text it accepts is ten
    of them, or ten of them and one line feed; every other text makes it
    raise the validation error. *)
Theorem Phone_new_texts (value : string) :
  (Spec.n_digits 10 value = true -> Phone.new value = Ok value)
  /\ (forall stored,
        Phone.new value = Ok stored ->
        stored = value
        /\ (Spec.n_digits 10 value = true
            \/ exists D, Spec.n_digits 10 D = true
                         /\ value = D ++ String PyStr.LF ""))
  /\ (Spec.n_digits 10 value = false ->
      (forall D, Spec.n_digits 10 D = true ->
                 value <> D ++ String PyStr.LF "") ->
      Phone.new value
      = Raise (ValueError "Phone number must have 10 digits.")).
Proof.
  split; [|split].
  - intros Hd. apply Phone_new_ok, Phone_validate_ok. now left.
  - intros stored E. unfold Phone.new, Field.new in E.
    destruct (Phone._validate value) as [[]|e] eqn:V; [|discriminate].
    cbn [rbind] in E. injection E as <-. split; [reflexivity|].
    now apply Phone_validate_ok.
  - intros Hd Hn. apply Phone_new_raise. rewrite Phone_validate_ok.
    intros [E|(D & HD & E)]; [congruence|]. now apply (Hn D).
Qed.

Lemma Phone_new_texts_witness :
  Phone.new "0123456789" = Ok "0123456789"
  /\ Phone.new "012345678X"
     = Raise (ValueError "Phone number must have 10 digits.").
Proof.
  destruct (Phone_new_texts "0123456789") as (A & _).
  destruct (Phone_new_texts "012345678X") as (_ & _ & B).
  split; [apply A; reflexivity|].
  apply B; [reflexivity|].
  intros D HD E.
  assert (L : String.length D = 10%nat).
  { unfold Spec.n_digits in HD. apply andb_true_iff in HD as [HD _].
    now apply Nat.eqb_eq. }
  apply (f_equal String.length) in E. rewrite length_append, L in E.
  discriminate.
Defined.

(** X9: on a text that passed validation the property [date] of a
    birthday does not fail: it gives a midnight, on a day of the calendar
    (year 1..9999, month 1..12, day 1..length of the month). *)
Theorem Birthday_date_midnight (value : string) :
  Birthday._validate value = Ok tt ->
  exists y m d,
    Birthday.date value = Ok (PyDatetime.Datetime y m d 0 0 0 0)
    /\ Spec.calendar_date y m d = true.
Proof.
  intros Hv. apply Birthday_validate_ok in Hv.
  destruct Hv as (D & M & Y & H1 & H2 & H3 & H4 & H5).
  exists (Spec.value Y), (Spec.value M), (Spec.value D).
  split; [|exact H5].
  apply strptime_ok. exists D, M, Y. auto 10.
Qed.

Lemma Birthday_date_midnight_witness :
  exists y m d,
    Birthday.date "15.03.1990" = Ok (PyDatetime.Datetime y m d 0 0 0 0)
    /\ Spec.calendar_date y m d = true.
Proof.
  apply Birthday_date_midnight. vm_compute. reflexivity.
Defined.

(** ** The command functions *)

Section CommandFacts.

Lemma Phone_new_caught (value : string) (e : exn) :
  Phone.new value = Raise e -> caught e = true.
Proof.
  unfold Phone.new, Field.new, Phone._validate.
  destruct (PyRe.re_match _ _); cbn [rbind]; [discriminate|].
  now intros [= <-].
Qed.

Lemma Birthday_new_caught (value : string) (e : exn) :
  Birthday.new value = Raise e -> caught e = true.
Proof.
  destruct (Birthday._validate value) as [[]|e'] eqn:V.
  - now rewrite (Birthday_new_ok value V).
  - assert (N : Birthday._validate value <> Ok tt) by congruence.
    rewrite (Birthday_new_raise value N). now intros [= <-].
Qed.

Lemma valid_phone_not_empty (phone : string) :
  Phone._validate phone = Ok tt -> PyStr.is_empty phone = false.
Proof. destruct phone; [vm_compute; discriminate | reflexivity]. Qed.

(** [add_contact] before decoration, case by case. *)
Lemma add_contact_body_name (name : string) (data : AddressBook.t) :
  add_contact_body [name] data
  = match AddressBook.find name data with
    | None => (Ok "Contact added.", PyDict.set name (Record.new name) data)
    | Some _ => (Ok "Contact updated.", data)
    end.
Proof.
  unfold add_contact_body, bind, lift, gets, ret, list_get.
  cbn [nth_error List.length Nat.ltb Nat.leb].
  now destruct (AddressBook.find name data).
Qed.

Lemma add_contact_body_phone (name phone : string) (more : list string)
  (data : AddressBook.t) :
  add_contact_body (name :: phone :: more) data
  = let record :=
      match AddressBook.find name data with
      | None => Record.new name
      | Some record => record
      end in
    let message :=
      match AddressBook.find name data with
      | None => "Contact added."
      | Some _ => "Contact updated."
      end in
    let data1 :=
      match AddressBook.find name data with
      | None => PyDict.set name (Record.new name) data
      | Some _ => data
      end in
    if PyStr.is_empty phone then (Ok message, data1)
    else match Phone.new phone with
         | Ok p =>
             (Ok message,
              PyDict.set name
                (Record.set_phones record (Record.phones record ++ [p]))
                data1)
         | Raise e => (Raise e, PyDict.set name record data1)
         end.
Proof.
  unfold add_contact_body, bind, lift, gets, ret, list_get.
  cbn [nth_error List.length Nat.ltb Nat.leb truthy].
  unfold AddressBook.add_record, on_record, Record.add_phone, bind, get,
    put, lift, ret.
  destruct (AddressBook.find name data) as [record|] eqn:Hf;
    cbn [fst snd Record.name Record.new];
    destruct (PyStr.is_empty phone); cbn [negb];
    try reflexivity;
    destruct (Phone.new phone);
    rewrite dict_replace_set
      by first [ unfold AddressBook.find in Hf; congruence
               | rewrite dict_get_set; discriminate ];
    reflexivity.
Qed.

Lemma add_contact_body_caught (args : list string) (data data' : AddressBook.t)
  (e : exn) :
  add_contact_body args data = (Raise e, data') -> caught e = true.
Proof.
  destruct args as [|name [|phone more]].
  - now intros [= <- _].
  - rewrite add_contact_body_name.
    destruct (AddressBook.find name data); discriminate.
  - rewrite add_contact_body_phone. cbv zeta.
    destruct (PyStr.is_empty phone).
    + destruct (AddressBook.find name data); discriminate.
    + destruct (Phone.new phone) eqn:P; [discriminate|].
      intros [= <- _]. now apply (Phone_new_caught phone).
Qed.

Lemma add_birthday_body_some (name birthday : string) (more : list string)
  (data : AddressBook.t) (record : Record.t) :
  AddressBook.find name data = Some record ->
  add_birthday_body (name :: birthday :: more) data
  = match Birthday.new birthday with
    | Ok b =>
        (Ok ("Birthday added for " ++ name ++ "."),
         PyDict.set name (Record.set_birthday record (Some b)) data)
    | Raise e => (Raise e, data)
    end.
Proof.
  intros Hf.
  unfold add_birthday_body, bind, lift, gets, ret, list_get.
  cbn [nth_error]. rewrite Hf.
  rewrite on_record_stored by congruence.
  unfold Record.add_birthday, bind, lift, get, put, ret.
  destruct (Birthday.new birthday); cbn [fst snd]; [reflexivity|].
  now rewrite (dict_set_same _ _ _ Hf).
Qed.

Lemma add_birthday_body_none (name birthday : string) (more : list string)
  (data : AddressBook.t) :
  AddressBook.find name data = None ->
  add_birthday_body (name :: birthday :: more) data
  = (Raise (KeyError "Contact not found."), data).
Proof.
  intros Hf.
  unfold add_birthday_body, bind, lift, gets, ret, list_get.
  cbn [nth_error]. now rewrite Hf.
Qed.

Lemma add_birthday_body_caught (args : list string)
  (data data' : AddressBook.t) (e : exn) :
  add_birthday_body args data = (Raise e, data') -> caught e = true.
Proof.
  destruct args as [|name [|birthday more]].
  - now intros [= <- _].
  - now intros [= <- _].
  - destruct (AddressBook.find name data) as [record|] eqn:Hf.
    + rewrite (add_birthday_body_some _ _ _ _ _ Hf).
      destruct (Birthday.new birthday) eqn:B; [discriminate|].
      intros [= <- _]. now apply (Birthday_new_caught birthday).
    + rewrite (add_birthday_body_none _ _ _ _ Hf). now intros [= <- _].
Qed.

Lemma show_birthday_body_caught (args : list string)
  (data data' : AddressBook.t) (e : exn) :
  show_birthday_body args data = (Raise e, data') -> caught e = true.
Proof.
  destruct args as [|name more].
  - now intros [= <- _].
  - unfold show_birthday_body, bind, lift, gets, ret, list_get.
    cbn [nth_error].
    destruct (AddressBook.find name data); [discriminate|].
    now intros [= <- _].
Qed.

Lemma input_error_returns {S : Type} (func : list string -> M S string)
  (args : list string) (s : S) :
  (forall e s', func args s = (Raise e, s') -> caught e = true) ->
  exists msg, input_error func args s = (Ok msg, snd (func args s)).
Proof.
  intros Hc. unfold input_error.
  destruct (func args s) as [[msg|e] s'] eqn:E; cbn [snd]; [eauto|].
  rewrite (Hc e s' eq_refl). eauto.
Qed.

End CommandFacts.

(** X10: the three commands that change or read one contact through a
    function decorated with [input_error], [add_contact], [add_birthday]
    and [show_birthday], never raise: whatever the arguments and the book,
    they return a text. *)
Theorem decorated_commands_return (args : list string)
  (data : AddressBook.t) :
  (exists msg data', add_contact args data = (Ok msg, data'))
  /\ (exists msg data', add_birthday args data = (Ok msg, data'))
  /\ (exists msg data', show_birthday args data = (Ok msg, data')).
Proof.
  split; [|split].
  - destruct (input_error_returns add_contact_body args data) as (msg & E).
    + intros e s'. apply add_contact_body_caught.
    + exists msg. eexists. exact E.
  - destruct (input_error_returns add_birthday_body args data) as (msg & E).
    + intros e s'. apply add_birthday_body_caught.
    + exists msg. eexists. exact E.
  - destruct (input_error_returns show_birthday_body args data) as (msg & E).
    + intros e s'. apply show_birthday_body_caught.
    + exists msg. eexists. exact E.
Qed.

Section CommandMoreFacts.

Lemma dict_set_last {V : Type} (k : string) (v v' : V) (d : PyDict.dict V) :
  PyDict.get k d = None ->
  PyDict.set k v' (d ++ [(k, v)])%list = (d ++ [(k, v')])%list.
Proof.
  induction d as [|[k0 v0] d IH]; simpl.
  - now rewrite String.eqb_refl.
  - destruct (String.eqb k0 k); [discriminate|].
    intros Hn. now rewrite IH.
Qed.

Lemma upcoming_caught (today next_week : PyDatetime.datetime)
  (record : Record.t) (e : exn) :
  AddressBook.upcoming today next_week record = Raise e -> caught e = true.
Proof.
  unfold AddressBook.upcoming, Birthday.date.
  destruct (Record.birthday record) as [b|]; [|discriminate].
  destruct (PyDatetime.strptime b) as [d|e'] eqn:S; cbn [rbind].
  - destruct (PyDatetime.replace_year d (PyDatetime.year today))
      as [d'|e'] eqn:R; cbn [rbind]; [discriminate|].
    intros [= <-]. unfold PyDatetime.replace_year in R.
    destruct (new_raise _ _ _ _ _ _ _ _ R) as (msg & ->). reflexivity.
  - intros [= <-]. destruct (strptime_raise _ _ S) as (msg & ->).
    reflexivity.
Qed.

Lemma comprehension_caught (cond : Record.t -> result bool)
  (records : list Record.t) (e : exn) :
  (forall r e', cond r = Raise e' -> caught e' = true) ->
  AddressBook.comprehension cond records = Raise e -> caught e = true.
Proof.
  intros Hc. induction records as [|r records IH];
    cbn [AddressBook.comprehension]; [discriminate|].
  destruct (cond r) as [keep|e'] eqn:C; cbn [rbind].
  - destruct (AddressBook.comprehension cond records) as [l|e'];
      cbn [rbind]; [discriminate|].
    intros [= <-]. now apply IH.
  - intros [= <-]. now apply (Hc r).
Qed.

End CommandMoreFacts.

(** X11: [birthdays] never changes the book.  When seven days after
    [today] is still a date ([today] no later than 24 December 9999), it
    returns a text, the error of a birthday that does not exist this year
    included; otherwise the [OverflowError] of the addition, which
    [input_error] does not catch, comes out of it. *)
Theorem birthdays_returns (today : PyDatetime.datetime)
  (args : list string) (data : AddressBook.t) :
  (forall next_week,
     PyDatetime.add_days today 7 = Ok next_week ->
     exists msg, birthdays today args data = (Ok msg, data))
  /\ (forall e,
        PyDatetime.add_days today 7 = Raise e ->
        e = OverflowError "date value out of range"
        /\ birthdays today args data = (Raise e, data)).
Proof.
  unfold birthdays, input_error, birthdays_body, bind, get, lift, ret,
    AddressBook.get_upcoming_birthdays.
  split.
  - intros next_week ->. cbn [rbind].
    destruct (AddressBook.comprehension _ _) as [[|r l]|e] eqn:C; eauto.
    rewrite (comprehension_caught _ _ e (upcoming_caught today next_week) C).
    eauto.
  - intros e E. rewrite E. cbn [rbind].
    unfold PyDatetime.add_days in E.
    destruct (_ && _) in E.
    + destruct (PyDatetime.ord2ymd _) as [[y m] d]. discriminate.
    + injection E as <-. split; reflexivity.
Qed.

Lemma birthdays_returns_witness :
  let alice := Record.Make "Alice" [] (Some "29.02.2000") in
  (exists msg,
     birthdays (PyDatetime.Datetime 2023 2 25 10 30 0 0) []
       [("Alice", alice)]
     = (Ok msg, [("Alice", alice)]))
  /\ birthdays (PyDatetime.Datetime 9999 12 25 0 0 0 0) []
       [("Alice", alice)]
     = (Raise (OverflowError "date value out of range"),
        [("Alice", alice)]).
Proof.
  intros alice.
  destruct (birthdays_returns (PyDatetime.Datetime 2023 2 25 10 30 0 0) []
              [("Alice", alice)]) as [A _].
  destruct (birthdays_returns (PyDatetime.Datetime 9999 12 25 0 0 0 0) []
              [("Alice", alice)]) as [_ B].
  split.
  - apply (A (PyDatetime.Datetime 2023 3 4 10 30 0 0)).
    vm_compute. reflexivity.
  - apply (B (OverflowError "date value out of range")).
    vm_compute. reflexivity.
Defined.

(** X12: [add_contact] with a name and a number that passes validation:
    for a name not in the book it returns "Contact added." and the book
    gains, after its other entries, a record of that name with that one
    phone; for a name in the book it returns "Contact updated." and the
    number goes after the phones of that record, in place. *)
Theorem add_contact_valid_phone (name phone : string) (more : list string)
  (data : AddressBook.t) :
  Phone._validate phone = Ok tt ->
  (AddressBook.find name data = None ->
   add_contact (name :: phone :: more) data
   = (Ok "Contact added.",
      (data ++ [(name, Record.Make name [phone] None)])%list))
  /\ (forall record,
        AddressBook.find name data = Some record ->
        add_contact (name :: phone :: more) data
        = (Ok "Contact updated.",
           PyDict.set name
             (Record.Make (Record.name record)
                (Record.phones record ++ [phone]) (Record.birthday record))
             data)).
Proof.
  intros Hv. unfold add_contact, input_error.
  rewrite add_contact_body_phone. cbv zeta.
  rewrite (valid_phone_not_empty _ Hv), (Phone_new_ok _ Hv).
  split.
  - intros Hf. rewrite Hf.
    rewrite (dict_set_new _ _ _ Hf).
    now rewrite (dict_set_last _ _ _ _ Hf).
  - intros record Hf. now rewrite Hf.
Qed.

Lemma add_contact_valid_phone_witness :
  let alice := Record.Make "Alice" ["1234567890"] (Some "15.03.1990") in
  add_contact ["Bob"; "0123456789"] [("Alice", alice)]
  = (Ok "Contact added.",
     [("Alice", alice); ("Bob", Record.Make "Bob" ["0123456789"] None)])
  /\ add_contact ["Alice"; "0123456789"] [("Alice", alice)]
     = (Ok "Contact updated.",
        [("Alice", Record.Make "Alice" ["1234567890"; "0123456789"]
                     (Some "15.03.1990"))]).
Proof.
  intros alice.
  assert (V : Phone._validate "0123456789" = Ok tt)
    by (vm_compute; reflexivity).
  destruct (add_contact_valid_phone "Bob" "0123456789" []
              [("Alice", alice)] V) as [A _].
  destruct (add_contact_valid_phone "Alice" "0123456789" []
              [("Alice", alice)] V) as [_ B].
  split.
  - apply A. reflexivity.
  - apply (B alice). reflexivity.
Defined.

(** X13: [add_contact] on a name that is in the book leaves the book as
    it was when no number is given, the text returned being all the same
    "Contact updated.", and when the number given fails validation, the
    text being then the validation error; with a name only that is not in
    the book, the book gains a record without phones. *)
Theorem add_contact_without_valid_phone (name : string)
  (data : AddressBook.t) :
  (forall record,
     AddressBook.find name data = Some record ->
     add_contact [name] data = (Ok "Contact updated.", data)
     /\ forall phone more,
          phone <> "" ->
          Phone._validate phone <> Ok tt ->
          add_contact (name :: phone :: more) data
          = (Ok "Phone number must have 10 digits.", data))
  /\ (AddressBook.find name data = None ->
      add_contact [name] data
      = (Ok "Contact added.",
         (data ++ [(name, Record.Make name [] None)])%list)).
Proof.
  unfold add_contact, input_error. split.
  - intros record Hf. split.
    + now rewrite add_contact_body_name, Hf.
    + intros phone more Hne Hv. rewrite add_contact_body_phone. cbv zeta.
      rewrite Hf, (Phone_new_raise _ Hv), (dict_set_same _ _ _ Hf).
      destruct phone; [congruence | reflexivity].
  - intros Hf. rewrite add_contact_body_name, Hf.
    now rewrite (dict_set_new _ _ _ Hf).
Qed.

Lemma add_contact_without_valid_phone_witness :
  let alice := Record.Make "Alice" ["1234567890"] None in
  add_contact ["Alice"] [("Alice", alice)]
  = (Ok "Contact updated.", [("Alice", alice)])
  /\ add_contact ["Alice"; "12345"] [("Alice", alice)]
     = (Ok "Phone number must have 10 digits.", [("Alice", alice)])
  /\ add_contact ["Bob"] [("Alice", alice)]
     = (Ok "Contact added.",
        [("Alice", alice); ("Bob", Record.Make "Bob" [] None)]).
Proof.
  intros alice.
  destruct (add_contact_without_valid_phone "Alice" [("Alice", alice)])
    as [A _].
  destruct (add_contact_without_valid_phone "Bob" [("Alice", alice)])
    as [_ B].
  destruct (A alice eq_refl) as [A1 A2].
  split; [exact A1|]. split.
  - apply A2; [discriminate | vm_compute; discriminate].
  - apply B. reflexivity.
Defined.

(** X14: for a name that is not in the book, [add_birthday] and
    [show_birthday] leave the book as it was and return the text of the
    [KeyError], which is its argument between single quotes:
    ['Contact not found.']. *)
Theorem birthday_commands_contact_absent (name : string)
  (more : list string) (data : AddressBook.t) :
  AddressBook.find name data = None ->
  (forall birthday,
     add_birthday (name :: birthday :: more) data
     = (Ok "'Contact not found.'", data))
  /\ show_birthday (name :: more) data = (Ok "'Contact not found.'", data).
Proof.
  intros Hf. split.
  - intros birthday. unfold add_birthday, input_error.
    now rewrite (add_birthday_body_none _ _ _ _ Hf).
  - unfold show_birthday, input_error, show_birthday_body, bind, lift,
      gets, list_get.
    cbn [nth_error]. now rewrite Hf.
Qed.

Lemma birthday_commands_contact_absent_witness :
  add_birthday ["Bob"; "15.03.1990"] []
  = (Ok "'Contact not found.'", [])
  /\ show_birthday ["Bob"] [] = (Ok "'Contact not found.'", []).
Proof.
  destruct (birthday_commands_contact_absent "Bob" [] [] eq_refl)
    as [A B].
  split; [apply A | exact B].
Defined.

(** X15: for a name that is in the book, [add_birthday] with a text that
    passes validation returns "Birthday added for <name>." and afterwards
    [show_birthday] returns "<name>'s birthday is <text>", the other
    contacts being as they were; with a text that fails validation it
    returns the validation error and the book is unchanged.  Before any
    birthday is set [show_birthday] returns "<name>'s birthday is
    Birthday not set.". *)
Theorem add_birthday_show_birthday (name birthday : string)
  (more more' : list string) (data : AddressBook.t) (record : Record.t) :
  AddressBook.find name data = Some record ->
  (Birthday._validate birthday = Ok tt ->
   exists data',
     add_birthday (name :: birthday :: more) data
     = (Ok ("Birthday added for " ++ name ++ "."), data')
     /\ show_birthday (name :: more') data'
        = (Ok (name ++ "'s birthday is " ++ birthday), data')
     /\ forall other,
          other <> name ->
          AddressBook.find other data' = AddressBook.find other data)
  /\ (Birthday._validate birthday <> Ok tt ->
      add_birthday (name :: birthday :: more) data
      = (Ok "Invalid date format. Use DD.MM.YYYY", data))
  /\ (Record.birthday record = None ->
      show_birthday (name :: more') data
      = (Ok (name ++ "'s birthday is Birthday not set."), data)).
Proof.
  intros Hf. split; [|split].
  - intros Hv.
    exists (PyDict.set name (Record.set_birthday record (Some birthday))
              data).
    unfold add_birthday, input_error.
    rewrite (add_birthday_body_some _ _ more _ _ Hf),
      (Birthday_new_ok _ Hv).
    split; [reflexivity|]. split.
    + unfold show_birthday, input_error, show_birthday_body, bind, lift,
        gets, ret, list_get, AddressBook.find.
      cbn [nth_error]. now rewrite dict_get_set.
    + intros other Hne. now apply dict_get_set_other.
  - intros Hv. unfold add_birthday, input_error.
    now rewrite (add_birthday_body_some _ _ more _ _ Hf),
      (Birthday_new_raise _ Hv).
  - intros Hb.
    unfold show_birthday, input_error, show_birthday_body, bind, lift,
      gets, ret, list_get.
    cbn [nth_error]. rewrite Hf. unfold Record.get_birthday.
    now rewrite Hb.
Qed.

Lemma add_birthday_show_birthday_witness :
  let alice := Record.Make "Alice" ["1234567890"] None in
  (exists data',
     add_birthday ["Alice"; "15.03.1990"] [("Alice", alice)]
     = (Ok "Birthday added for Alice.", data')
     /\ show_birthday ["Alice"] data'
        = (Ok "Alice's birthday is 15.03.1990", data'))
  /\ add_birthday ["Alice"; "1990-03-15"] [("Alice", alice)]
     = (Ok "Invalid date format. Use DD.MM.YYYY", [("Alice", alice)])
  /\ show_birthday ["Alice"] [("Alice", alice)]
     = (Ok "Alice's birthday is Birthday not set.", [("Alice", alice)]).
Proof.
  intros alice.
  destruct (add_birthday_show_birthday "Alice" "15.03.1990" [] []
              [("Alice", alice)] alice eq_refl) as (A & _ & C).
  destruct (add_birthday_show_birthday "Alice" "1990-03-15" [] []
              [("Alice", alice)] alice eq_refl) as (_ & B & _).
  split; [|split].
  - destruct A as (data' & E1 & E2 & _); [vm_compute; reflexivity|].
    exists data'. split; [exact E1 | exact E2].
  - apply B. vm_compute. discriminate.
  - apply C. reflexivity.
Defined.

(** ** Lines and tokens *)

Section TokenFacts.

Lemma split_run_no_space (s tok : string) :
  PyStr.forallb (fun c => negb (PyStr.isspace c)) tok = true ->
  Forall (fun t => Inv.token t = true) (PyStr.split_run s tok).
Proof.
  unfold Inv.token.
  revert tok. induction s as [|c s IH]; intros tok Ht;
    cbn [PyStr.split_run].
  - destruct tok; cbn [PyStr.is_empty]; [constructor|].
    constructor; [now rewrite Ht | constructor].
  - destruct (PyStr.isspace c) eqn:Sc.
    + destruct tok; cbn [PyStr.is_empty]; [now apply IH|].
      constructor; [now rewrite Ht | now apply IH].
    + apply IH. clear IH.
      induction tok as [|x tok IHt]; cbn [append PyStr.forallb] in *.
      * now rewrite Sc.
      * apply andb_true_iff in Ht as [-> Ht]. now apply IHt.
Qed.

Lemma split_run_token (t s tok : string) :
  PyStr.forallb (fun c => negb (PyStr.isspace c)) t = true ->
  PyStr.split_run (t ++ s) tok = PyStr.split_run s (tok ++ t).
Proof.
  revert tok. induction t as [|c t IH]; intros tok Ht;
    cbn [append PyStr.split_run PyStr.forallb] in *.
  - now rewrite append_nil_r.
  - apply andb_true_iff in Ht as [Hc Ht].
    apply negb_true_iff in Hc. rewrite Hc, (IH _ Ht).
    now rewrite append_assoc.
Qed.

Lemma split_join (tokens : list string) :
  Forall (fun t => Inv.token t = true) tokens ->
  tokens <> [] ->
  PyStr.split_run (PyStr.join " " tokens) "" = tokens.
Proof.
  intros Ht _. induction Ht as [|t tokens Hx Ht IH]; [reflexivity|].
  unfold Inv.token in Hx. apply andb_true_iff in Hx as [Hne Hs].
  destruct tokens as [|t' tokens].
  - cbn [PyStr.join]. rewrite <- (append_nil_r t) at 1.
    rewrite (split_run_token t "" "" Hs). cbn [append PyStr.split_run].
    now destruct t.
  - change (PyStr.join " " (t :: t' :: tokens))
      with (t ++ " " ++ PyStr.join " " (t' :: tokens)).
    rewrite (split_run_token t _ "" Hs).
    cbn [append PyStr.split_run].
    change (PyStr.isspace " ") with true. cbv iota.
    destruct t; [discriminate|]. cbn [PyStr.is_empty].
    now rewrite IH.
Qed.

End TokenFacts.

(** X16: what [parse_input] returns is made of tokens, none empty and
    none with white space in it; and it reads back a command and its
    arguments written with single spaces between them. *)
Theorem parse_input_tokens (line : string) :
  (forall command args,
     parse_input line = Ok (command, args) ->
     Forall (fun t => Inv.token t = true) (command :: args))
  /\ (forall command args,
        Forall (fun t => Inv.token t = true) (command :: args) ->
        line = PyStr.join " " (command :: args) ->
        parse_input line = Ok (command, args)).
Proof.
  unfold parse_input, PyStr.split. split.
  - intros command args.
    pose proof (split_run_no_space line "" eq_refl) as T.
    destruct (PyStr.split_run line "") as [|c l]; [discriminate|].
    cbn. now intros [= <- <-].
  - intros command args Ht ->.
    rewrite (split_join _ Ht); [reflexivity | discriminate].
Qed.

Lemma parse_input_tokens_witness :
  Forall (fun t => Inv.token t = true) ["add"; "Bob"; "0123456789"]
  /\ parse_input "add Bob 0123456789" = Ok ("add", ["Bob"; "0123456789"]).
Proof.
  destruct (parse_input_tokens "  add   Bob 0123456789 ") as [A _].
  destruct (parse_input_tokens "add Bob 0123456789") as [_ B].
  split.
  - apply (A "add" ["Bob"; "0123456789"]). reflexivity.
  - apply B; [|reflexivity]. repeat constructor.
Defined.

(** ** Turns of the loop *)

Section TurnFacts.
Context `{Pickle}.

Lemma dispatch_add (now : PyDatetime.datetime) (args : list string)
  (w : world) :
  dispatch now "add" args w
  = match add_contact args (book w) with
    | (Ok msg, data) =>
        (Ok false,
         World data (AddressBook.save_to_file default_filename data (disk w))
               (stdout w ++ [msg]))
    | (Raise e, data) => (Raise e, World data (disk w) (stdout w))
    end.
Proof.
  unfold dispatch, cmd_is. cbn [String.eqb Ascii.eqb Bool.eqb orb].
  unfold bind, in_book, print, save_book, ret.
  destruct (add_contact args (book w)) as [[msg|e] data]; reflexivity.
Qed.

Lemma dispatch_add_birthday (now : PyDatetime.datetime)
  (args : list string) (w : world) :
  dispatch now "add-birthday" args w
  = match add_birthday args (book w) with
    | (Ok msg, data) =>
        (Ok false,
         World data (AddressBook.save_to_file default_filename data (disk w))
               (stdout w ++ [msg]))
    | (Raise e, data) => (Raise e, World data (disk w) (stdout w))
    end.
Proof.
  unfold dispatch, cmd_is. cbn [String.eqb Ascii.eqb Bool.eqb orb].
  unfold bind, in_book, print, save_book, ret.
  destruct (add_birthday args (book w)) as [[msg|e] data]; reflexivity.
Qed.

Lemma dispatch_exit (now : PyDatetime.datetime) (command : string)
  (args : list string) (w : world) :
  command = "close" \/ command = "exit" ->
  dispatch now command args w
  = (Ok true,
     World (book w)
           (AddressBook.save_to_file default_filename (book w) (disk w))
           (stdout w ++ ["Good bye!"])).
Proof. intros [->| ->]; reflexivity. Qed.

Lemma print_all_book (lines : list string) (w : world) :
  print_all lines w
  = (Ok tt, World (book w) (disk w) (stdout w ++ lines)).
Proof.
  revert w. induction lines as [|l lines IH]; intros w.
  - cbn [print_all]. unfold ret. now rewrite app_nil_r, world_eta.
  - cbn [print_all]. unfold bind, print. rewrite IH. cbn [book disk stdout].
    now rewrite <- app_assoc.
Qed.

Lemma show_birthday_book (args : list string) (data : AddressBook.t) :
  snd (show_birthday args data) = data.
Proof.
  unfold show_birthday, input_error, show_birthday_body, bind, lift, gets,
    ret, raise, list_get.
  destruct (nth_error args 0) as [name|]; [|reflexivity].
  now destruct (AddressBook.find name data).
Qed.

Lemma birthdays_book (today : PyDatetime.datetime) (args : list string)
  (data : AddressBook.t) :
  snd (birthdays today args data) = data.
Proof.
  unfold birthdays, input_error, birthdays_body, bind, get, lift, ret.
  destruct (AddressBook.get_upcoming_birthdays today data) as [[|r l]|e];
    try reflexivity.
  now destruct (caught e).
Qed.

Lemma in_book_print (m : M AddressBook.t string) (w : world) :
  let w' := snd ((msg <- in_book m ;; print msg ;;; ret false)%py w) in
  book w' = snd (m (book w)) /\ disk w' = disk w.
Proof.
  unfold bind, in_book, print, ret.
  destruct (m (book w)) as [[msg|e] data]; now split.
Qed.

(** A command other than the five after which the file is written leaves
    the book and the files as they were. *)
Lemma dispatch_reading (now : PyDatetime.datetime) (command : string)
  (args : list string) (w : world) :
  Inv.saving command = false ->
  book (snd (dispatch now command args w)) = book w
  /\ disk (snd (dispatch now command args w)) = disk w.
Proof.
  unfold Inv.saving. cbn [existsb]. rewrite !orb_false_iff.
  intros (C1 & C2 & C3 & C4 & C5 & _).
  unfold dispatch, cmd_is. rewrite C1, C2, C3, C4, C5. cbn [orb].
  destruct (String.eqb command "hello"); [now split|].
  destruct (String.eqb command "phone").
  { unfold bind, lift, in_book, gets, print, ret, list_get.
    destruct (nth_error args 0) as [name|]; cbn [book disk stdout snd];
      [|now split].
    destruct (AddressBook.find name (book w)); now split. }
  destruct (String.eqb command "all").
  { unfold bind, in_book, get. cbn [book disk stdout].
    rewrite print_all_book. now split. }
  destruct (String.eqb command "show-birthday").
  { destruct (in_book_print (show_birthday args) w) as [B D].
    rewrite B, D. now rewrite show_birthday_book. }
  destruct (String.eqb command "birthdays").
  { destruct (in_book_print (birthdays now args) w) as [B D].
    rewrite B, D. now rewrite birthdays_book. }
  now split.
Qed.

End TurnFacts.

(** X17: a turn on a command other than [close], [exit], [add], [change]
    and [add-birthday] leaves the book and the files as they were,
    whatever it prints and whether or not it raises; on a command that is
    none of the ten it prints "Invalid command." and goes on. *)
Theorem reading_commands_change_nothing `{Pickle}
  (now : PyDatetime.datetime) (line command : string) (args : list string)
  (w : world) :
  PyStr.split line = command :: args ->
  (Inv.saving command = false ->
   book (snd (step now line w)) = book w
   /\ disk (snd (step now line w)) = disk w)
  /\ (~ In command ["close"; "exit"; "hello"; "add"; "change"; "phone";
                    "all"; "add-birthday"; "show-birthday"; "birthdays"] ->
      step now line w
      = (Ok false,
         World (book w) (disk w) (stdout w ++ ["Invalid command."]))).
Proof.
  intros E. rewrite (step_tokens now line _ _ w E). split.
  - apply dispatch_reading.
  - intros Hn. unfold dispatch, cmd_is.
    repeat match goal with
           | |- context [String.eqb command ?c] =>
               destruct (String.eqb_spec command c) as [->|_];
               [exfalso; apply Hn; simpl; tauto|]
           end.
    reflexivity.
Qed.

Lemma reading_commands_change_nothing_witness :
  let now := PyDatetime.Datetime 2024 3 12 10 30 0 0 in
  let alice := Record.Make "Alice" ["1234567890"] None in
  let w := @World RefPickle.pickle [("Alice", alice)] (fun _ => None) [] in
  book (snd (step now "phone Alice" w)) = book w
  /\ step now "remove Alice" w
     = (Ok false, World (book w) (disk w) ["Invalid command."]).
Proof.
  intros now alice w.
  destruct (@reading_commands_change_nothing RefPickle.pickle now
              "phone Alice" "phone" ["Alice"] w eq_refl) as [A _].
  destruct (@reading_commands_change_nothing RefPickle.pickle now
              "remove Alice" "remove" ["Alice"] w eq_refl) as [_ B].
  split.
  - apply A. reflexivity.
  - apply B. simpl. intuition discriminate.
Defined.

(** X18: on [close] or [exit], whatever follows on the line, the loop
    writes the book to the file, prints "Good bye!" and ends without
    reading further; a later run of [main] on the files so left starts,
    after its welcome, from that very book. *)
Theorem exit_saves_book `{P : Pickle} (RT : PickleRoundTrip P)
  (now : PyDatetime.datetime) (line command : string) (args : list string)
  (w : world) (inputs later : list (PyDatetime.datetime * string)) :
  PyStr.split line = command :: args ->
  command = "close" \/ command = "exit" ->
  let fs := AddressBook.save_to_file default_filename (book w) (disk w) in
  loop ((now, line) :: inputs) w
  = (Ok tt, World (book w) fs (stdout w ++ ["Good bye!"]))
  /\ main fs later
     = loop later (World (book w) fs ["Welcome to the assistant bot!"]).
Proof.
  intros E C fs. split.
  - cbn [loop]. unfold bind.
    rewrite (step_tokens now line _ _ w E), (dispatch_exit now _ args w C).
    reflexivity.
  - unfold main, main_body, bind, load_book, AddressBook.load_from_file.
    cbn [book disk stdout].
    unfold fs, AddressBook.save_to_file, write_file.
    rewrite String.eqb_refl. unfold bind, lift, put. rewrite RT.
    reflexivity.
Qed.

Lemma exit_saves_book_witness :
  let now := PyDatetime.Datetime 2024 3 12 10 30 0 0 in
  let alice := Record.Make "Alice" ["1234567890"] None in
  let w := @World RefPickle.pickle [("Alice", alice)] (fun _ => None) [] in
  let fs := AddressBook.save_to_file default_filename (book w) (disk w) in
  loop [(now, "exit now"); (now, "hello")] w
  = (Ok tt, World (book w) fs ["Good bye!"])
  /\ main fs [(now, "all")]
     = loop [(now, "all")]
         (World (book w) fs ["Welcome to the assistant bot!"]).
Proof.
  intros now alice w fs.
  apply (@exit_saves_book RefPickle.pickle RefPickleFacts.round_trip now
           "exit now" "exit" ["now"] w [(now, "hello")] [(now, "all")]).
  - reflexivity.
  - now right.
Defined.

(** X19: a turn on [add] or on [add-birthday] never raises: it prints
    one text and goes on, and after it the file holds the dump of the
    book as the turn left it, the other files being untouched. *)
Theorem add_commands_write_file `{Pickle} (now : PyDatetime.datetime)
  (line command : string) (args : list string) (w : world) :
  PyStr.split line = command :: args ->
  command = "add" \/ command = "add-birthday" ->
  exists msg data,
    step now line w
    = (Ok false,
       World data (AddressBook.save_to_file default_filename data (disk w))
             (stdout w ++ [msg]))
    /\ AddressBook.save_to_file default_filename data (disk w)
         default_filename
       = Some (pickle_dump data)
    /\ forall f, f <> default_filename ->
         AddressBook.save_to_file default_filename data (disk w) f
         = disk w f.
Proof.
  intros E C. rewrite (step_tokens now line _ _ w E).
  assert (S : forall data,
             AddressBook.save_to_file default_filename data (disk w)
               default_filename = Some (pickle_dump data)
             /\ forall f, f <> default_filename ->
                  AddressBook.save_to_file default_filename data (disk w) f
                  = disk w f).
  { intros data. unfold AddressBook.save_to_file, write_file. split.
    - now rewrite String.eqb_refl.
    - intros f Hf. now destruct (String.eqb_spec f default_filename). }
  destruct C as [-> | ->].
  - rewrite dispatch_add.
    destruct (input_error_returns add_contact_body args (book w))
      as (msg & R).
    { intros e s'. apply add_contact_body_caught. }
    fold add_contact in R. rewrite R.
    exists msg, (snd (add_contact_body args (book w))).
    split; [reflexivity | apply S].
  - rewrite dispatch_add_birthday.
    destruct (input_error_returns add_birthday_body args (book w))
      as (msg & R).
    { intros e s'. apply add_birthday_body_caught. }
    fold add_birthday in R. rewrite R.
    exists msg, (snd (add_birthday_body args (book w))).
    split; [reflexivity | apply S].
Qed.

Lemma add_commands_write_file_witness :
  let now := PyDatetime.Datetime 2024 3 12 10 30 0 0 in
  let w := @World RefPickle.pickle [] (fun _ => None) [] in
  exists msg data,
    step now "add Bob 0123456789" w
    = (Ok false,
       World data (AddressBook.save_to_file default_filename data (disk w))
             [msg])
    /\ AddressBook.save_to_file default_filename data (disk w)
         default_filename
       = Some (pickle_dump data).
Proof.
  intros now w.
  destruct (@add_commands_write_file RefPickle.pickle now
              "add Bob 0123456789" "add" ["Bob"; "0123456789"] w eq_refl
              (or_introl eq_refl)) as (msg & data & E & S & _).
  exists msg, data. split; [exact E | exact S].
Defined.

(** X20: on a line [change name old_phone new_phone] where the contact
    exists, one of its phones is [old_phone] and [new_phone] passes
    validation, the first such phone of that contact becomes [new_phone],
    the loop prints the text "None", which is what [edit_phone] returns,
    writes the book to the file and goes on. *)
Theorem change_replaces_phone `{Pickle} (now : PyDatetime.datetime)
  (line name old_phone new_phone : string) (w : world) (record : Record.t) :
  PyStr.split line = ["change"; name; old_phone; new_phone] ->
  AddressBook.find name (book w) = Some record ->
  In old_phone (Record.phones record) ->
  Phone._validate new_phone = Ok tt ->
  exists before after,
    Record.phones record = (before ++ old_phone :: after)%list
    /\ ~ In old_phone before
    /\ let data :=
         PyDict.set name
           (Record.Make (Record.name record)
              (before ++ new_phone :: after)%list (Record.birthday record))
           (book w) in
       step now line w
       = (Ok false,
          World data
                (AddressBook.save_to_file default_filename data (disk w))
                (stdout w ++ ["None"])).
Proof.
  intros E Hf Hin Hv.
  destruct (edit_phone_loop_found _ _ _ Hin Hv)
    as (before & after & Hp & Hb & L).
  exists before, after. split; [exact Hp|]. split; [exact Hb|].
  rewrite (step_tokens now line _ _ w E), dispatch_change, Hf.
  unfold Record.edit_phone, bind, get, lift, put. rewrite L. reflexivity.
Qed.

Lemma change_replaces_phone_witness :
  let now := PyDatetime.Datetime 2024 3 12 10 30 0 0 in
  let alice := Record.Make "Alice" ["1234567890"; "5555555555"]
                 (Some "15.03.1990") in
  let bob := Record.Make "Bob" ["1234567890"] None in
  let w := @World RefPickle.pickle [("Alice", alice); ("Bob", bob)]
             (fun _ => None) [] in
  let data := [("Alice", Record.Make "Alice" ["0123456789"; "5555555555"]
                           (Some "15.03.1990"));
               ("Bob", bob)] in
  step now "change Alice 1234567890 0123456789" w
  = (Ok false,
     World data (AddressBook.save_to_file default_filename data (disk w))
           ["None"]).
Proof.
  intros now alice bob w data.
  destruct (@change_replaces_phone RefPickle.pickle now
              "change Alice 1234567890 0123456789" "Alice" "1234567890"
              "0123456789" w alice)
    as (before & after & E & Hn & R).
  - reflexivity.
  - reflexivity.
  - simpl. auto.
  - vm_compute. reflexivity.
  - destruct before as [|x before].
    + injection E as <-. exact R.
    + exfalso. apply Hn. injection E as <- _. now left.
Defined.

(** X21: after a turn [add name phone] for a name that was not in the
    book and a number that passes validation, which prints "Contact
    added.", a turn [phone name] prints "<name>'s phones: <phone>". *)
Theorem add_then_phone `{Pickle} (now now' : PyDatetime.datetime)
  (line line' name phone : string)
  (inputs : list (PyDatetime.datetime * string)) (w : world) :
  PyStr.split line = ["add"; name; phone] ->
  PyStr.split line' = ["phone"; name] ->
  AddressBook.find name (book w) = None ->
  Phone._validate phone = Ok tt ->
  let data := (book w ++ [(name, Record.Make name [phone] None)])%list in
  loop ((now, line) :: (now', line') :: inputs) w
  = loop inputs
      (World data (AddressBook.save_to_file default_filename data (disk w))
             (stdout w ++ ["Contact added.";
                           name ++ "'s phones: " ++ phone])).
Proof.
  intros E E' Hf Hv data.
  assert (A : add_contact [name; phone] (book w)
              = (Ok "Contact added.", data)).
  { unfold add_contact, input_error. rewrite add_contact_body_phone.
    cbv zeta. rewrite (valid_phone_not_empty _ Hv), (Phone_new_ok _ Hv), Hf.
    rewrite (dict_set_new _ _ _ Hf).
    now rewrite (dict_set_last _ _ _ _ Hf). }
  assert (F : AddressBook.find name data
              = Some (Record.Make name [phone] None)).
  { unfold data, AddressBook.find.
    rewrite <- (dict_set_new name (Record.Make name [phone] None)
                  (book w) Hf).
    apply dict_get_set. }
  cbn [loop]. unfold bind at 1.
  rewrite (step_tokens now line _ _ w E), dispatch_add, A.
  unfold bind at 1.
  rewrite (step_tokens now' line' _ _ _ E').
  unfold dispatch, cmd_is. cbn [String.eqb Ascii.eqb Bool.eqb orb].
  unfold bind, lift, in_book, gets, print, ret, list_get.
  cbn [nth_error book disk stdout]. rewrite F.
  cbn [Record.phones PyStr.join book disk stdout].
  now rewrite <- app_assoc.
Qed.

Lemma add_then_phone_witness :
  let now := PyDatetime.Datetime 2024 3 12 10 30 0 0 in
  let w := @World RefPickle.pickle [] (fun _ => None) [] in
  let data := [("Alice", Record.Make "Alice" ["1234567890"] None)] in
  loop [(now, "add Alice 1234567890"); (now, "phone Alice"); (now, "exit")]
    w
  = loop [(now, "exit")]
      (World data (AddressBook.save_to_file default_filename data (disk w))
             ["Contact added."; "Alice's phones: 1234567890"]).
Proof.
  intros now w data.
  apply (@add_then_phone RefPickle.pickle now now "add Alice 1234567890"
           "phone Alice" "Alice" "1234567890" [(now, "exit")] w).
  - reflexivity.
  - reflexivity.
  - reflexivity.
  - vm_compute. reflexivity.
Defined.

(** X22: started where there is no file, [main] prints its welcome and
    enters the loop with an empty book, without raising; started on a file
    that [pickle] cannot load, it ends on that error before printing
    anything. *)
Theorem main_start `{Pickle} (fs : files)
  (inputs : list (PyDatetime.datetime * string)) :
  (fs default_filename = None ->
   main fs inputs
   = loop inputs
       (World AddressBook.empty fs ["Welcome to the assistant bot!"]))
  /\ (forall content e,
        fs default_filename = Some content ->
        pickle_load content = Raise e ->
        main fs inputs = (Raise e, World AddressBook.empty fs [])).
Proof.
  unfold main, main_body, bind, load_book, AddressBook.load_from_file.
  cbn [book disk stdout]. split.
  - now intros ->.
  - intros content e -> L. unfold bind, lift. now rewrite L.
Qed.

Lemma main_start_witness :
  let now := PyDatetime.Datetime 2024 3 12 10 30 0 0 in
  main (H := RefPickle.pickle) (fun _ => None) [(now, "hello")]
  = loop [(now, "hello")]
      (@World RefPickle.pickle AddressBook.empty (fun _ => None)
              ["Welcome to the assistant bot!"])
  /\ main (H := RefPickle.pickle) (fun _ => Some ["1"%char])
       [(now, "hello")]
     = (Raise UnpicklingError,
        @World RefPickle.pickle AddressBook.empty
          (fun _ => Some ["1"%char]) []).
Proof.
  intros now.
  destruct (@main_start RefPickle.pickle (fun _ => None) [(now, "hello")])
    as [A _].
  destruct (@main_start RefPickle.pickle (fun _ => Some ["1"%char])
              [(now, "hello")]) as [_ B].
  split.
  - apply A. reflexivity.
  - apply (B ["1"%char]); reflexivity.
Defined.

(** ** The invariants of the book *)

Section InvariantFacts.
Import Inv.

Lemma dict_get_in {V : Type} (k : string) (v : V) (d : PyDict.dict V) :
  PyDict.get k d = Some v -> In (k, v) d.
Proof.
  induction d as [|[k0 v0] d IH]; simpl; [discriminate|].
  destruct (String.eqb_spec k0 k) as [->|Hne].
  - intros [= ->]. now left.
  - intros E. right. now apply IH.
Qed.

Lemma dict_forall_set {V : Type} (P : string * V -> Prop) (k : string)
  (v : V) (d : PyDict.dict V) :
  Forall P d -> P (k, v) -> Forall P (PyDict.set k v d).
Proof.
  intros Hd Hv. induction Hd as [|[k0 v0] d H0 Hd IH]; simpl.
  - now constructor.
  - destruct (String.eqb_spec k0 k) as [->|Hne]; now constructor.
Qed.

Lemma wf_book_find (d : AddressBook.t) (name : string) (r : Record.t) :
  wf_book d -> AddressBook.find name d = Some r ->
  Record.name r = name /\ wf_record r.
Proof.
  intros [_ Hf] E. apply dict_get_in in E.
  rewrite Forall_forall in Hf. exact (Hf _ E).
Qed.

Lemma wf_book_set (d : AddressBook.t) (name : string) (r : Record.t) :
  wf_book d -> Record.name r = name -> wf_record r ->
  wf_book (PyDict.set name r d).
Proof.
  intros [Hn Hf] En Hr. split.
  - now apply dict_nodup_set.
  - apply dict_forall_set; [assumption | now split].
Qed.

Lemma wf_record_new (name : string) : wf_record (Record.new name).
Proof. split; [constructor | exact I]. Qed.

Lemma Phone_new_valid (value p : string) :
  Phone.new value = Ok p -> Phone._validate p = Ok tt.
Proof.
  unfold Phone.new, Field.new.
  destruct (Phone._validate value) as [[]|e] eqn:V; cbn [rbind];
    [|discriminate].
  now intros [= <-].
Qed.

Lemma Birthday_new_valid (value b : string) :
  Birthday.new value = Ok b -> Birthday._validate b = Ok tt.
Proof.
  unfold Birthday.new, Field.new.
  destruct (Birthday._validate value) as [[]|e] eqn:V; cbn [rbind];
    [|discriminate].
  now intros [= <-].
Qed.

Lemma wf_record_add_phone (r : Record.t) (p : string) :
  wf_record r -> Phone._validate p = Ok tt ->
  wf_record (Record.set_phones r (Record.phones r ++ [p])).
Proof.
  intros [Hp Hb] Hv. split; [|exact Hb].
  cbn [Record.phones Record.set_phones]. apply Forall_app. split;
    [assumption | now constructor].
Qed.

Lemma edit_phone_loop_valid (ps ps' : list string)
  (old_phone new_phone : string) :
  Forall (fun p => Phone._validate p = Ok tt) ps ->
  Record.edit_phone_loop ps old_phone new_phone = Ok ps' ->
  Forall (fun p => Phone._validate p = Ok tt) ps'.
Proof.
  intros Hp. revert ps'. induction Hp as [|p ps Hv Hp IH]; intros ps';
    cbn [Record.edit_phone_loop]; [discriminate|].
  destruct (String.eqb p old_phone).
  - destruct (Phone.new new_phone) as [v|e] eqn:N; cbn [rbind];
      [|discriminate].
    intros [= <-]. constructor; [now apply (Phone_new_valid new_phone)|].
    assumption.
  - destruct (Record.edit_phone_loop ps old_phone new_phone) as [l|e];
      cbn [rbind]; [|discriminate].
    intros [= <-]. constructor; [assumption | now apply IH].
Qed.

Lemma wf_add_contact (args : list string) (d : AddressBook.t) :
  wf_book d -> wf_book (snd (add_contact args d)).
Proof.
  intros Hd.
  assert (S : snd (add_contact args d) = snd (add_contact_body args d)).
  { unfold add_contact, input_error.
    destruct (add_contact_body args d) as [[msg|e] d']; [reflexivity|].
    now destruct (caught e). }
  rewrite S. clear S.
  destruct args as [|name [|phone more]].
  - exact Hd.
  - rewrite add_contact_body_name.
    destruct (AddressBook.find name d); cbn [snd]; [exact Hd|].
    apply wf_book_set; [assumption | reflexivity | apply wf_record_new].
  - rewrite add_contact_body_phone. cbv zeta.
    destruct (AddressBook.find name d) as [record|] eqn:Hf.
    + destruct (wf_book_find _ _ _ Hd Hf) as [En Hr].
      destruct (PyStr.is_empty phone); cbn [snd]; [exact Hd|].
      destruct (Phone.new phone) as [p|e] eqn:N; cbn [snd].
      * apply wf_book_set; [assumption | exact En |].
        apply wf_record_add_phone; [assumption|].
        now apply (Phone_new_valid phone).
      * now apply wf_book_set.
    + assert (H1 : wf_book (PyDict.set name (Record.new name) d)).
      { apply wf_book_set; [assumption | reflexivity | apply wf_record_new]. }
      destruct (PyStr.is_empty phone); cbn [snd]; [exact H1|].
      destruct (Phone.new phone) as [p|e] eqn:N; cbn [snd].
      * apply wf_book_set; [assumption | reflexivity |].
        apply wf_record_add_phone; [apply wf_record_new|].
        now apply (Phone_new_valid phone).
      * apply wf_book_set; [assumption | reflexivity | apply wf_record_new].
Qed.

Lemma wf_add_birthday (args : list string) (d : AddressBook.t) :
  wf_book d -> wf_book (snd (add_birthday args d)).
Proof.
  intros Hd.
  assert (S : snd (add_birthday args d) = snd (add_birthday_body args d)).
  { unfold add_birthday, input_error.
    destruct (add_birthday_body args d) as [[msg|e] d']; [reflexivity|].
    now destruct (caught e). }
  rewrite S. clear S.
  destruct args as [|name [|birthday more]]; [exact Hd | exact Hd |].
  destruct (AddressBook.find name d) as [record|] eqn:Hf.
  - rewrite (add_birthday_body_some _ _ _ _ _ Hf).
    destruct (wf_book_find _ _ _ Hd Hf) as [En [Hp Hb]].
    destruct (Birthday.new birthday) as [b|e] eqn:N; cbn [snd];
      [|exact Hd].
    apply wf_book_set; [assumption | exact En |].
    split; [exact Hp|]. cbn. now apply (Birthday_new_valid birthday).
  - now rewrite (add_birthday_body_none _ _ _ _ Hf).
Qed.

Lemma wf_change `{Pickle} (now : PyDatetime.datetime) (args : list string)
  (w : world) :
  wf_book (book w) -> wf_book (book (snd (dispatch now "change" args w))).
Proof.
  intros Hd.
  destruct args as [|name [|old_phone [|new_phone [|x more]]]];
    try exact Hd.
  rewrite dispatch_change.
  destruct (AddressBook.find name (book w)) as [record|] eqn:Hf;
    [|exact Hd].
  destruct (wf_book_find _ _ _ Hd Hf) as [En [Hp Hb]].
  unfold Record.edit_phone, bind, get, lift, put.
  destruct (Record.edit_phone_loop (Record.phones record) old_phone
              new_phone) as [ps|e] eqn:L; cbn [snd book].
  - apply wf_book_set; [assumption | exact En |].
    split; [|exact Hb]. now apply (edit_phone_loop_valid _ _ _ _ Hp L).
  - apply wf_book_set; [assumption | exact En | now split].
Qed.

Lemma wf_dispatch `{Pickle} (now : PyDatetime.datetime) (command : string)
  (args : list string) (w : world) :
  wf_book (book w) -> wf_book (book (snd (dispatch now command args w))).
Proof.
  intros Hd. destruct (saving command) eqn:C.
  - unfold saving in C. cbn [existsb] in C.
    rewrite !orb_true_iff, !String.eqb_eq in C.
    destruct C as [->|[->|[->|[->|[->|C]]]]]; [| | | | |discriminate].
    + now rewrite (dispatch_exit now "close" args w (or_introl eq_refl)).
    + now rewrite (dispatch_exit now "exit" args w (or_intror eq_refl)).
    + rewrite dispatch_add. pose proof (wf_add_contact args _ Hd) as A.
      now destruct (add_contact args (book w)) as [[msg|e] d'].
    + now apply wf_change.
    + rewrite dispatch_add_birthday.
      pose proof (wf_add_birthday args _ Hd) as A.
      now destruct (add_birthday args (book w)) as [[msg|e] d'].
  - destruct (dispatch_reading now command args w C) as [-> _]. exact Hd.
Qed.

Lemma wf_step `{Pickle} (now : PyDatetime.datetime) (line : string)
  (w : world) :
  wf_book (book w) -> wf_book (book (snd (step now line w))).
Proof.
  intros Hd. unfold step, bind, lift.
  destruct (parse_input line) as [[command args]|e]; [|exact Hd].
  now apply wf_dispatch.
Qed.

Lemma wf_loop `{Pickle} (inputs : list (PyDatetime.datetime * string))
  (w : world) :
  wf_book (book w) -> wf_book (book (snd (loop inputs w))).
Proof.
  revert w. induction inputs as [|[now line] inputs IH]; intros w Hd;
    cbn [loop]; [exact Hd|].
  unfold bind. pose proof (wf_step now line w Hd) as S.
  destruct (step now line w) as [[[|]|e] w']; cbn [snd] in *;
    [exact S | now apply IH | exact S].
Qed.

End InvariantFacts.

(** X23: the turns of the loop keep the book well formed: if it has one
    entry per name, each record under its own name, every phone accepted
    by [Phone] and every birthday by [Birthday], then so it has after any
    turn, whether the turn ends well or raises, hence after any run of the
    loop; and it has when [main], started without a file, stops. *)
Theorem turns_keep_book_well_formed `{Pickle}
  (inputs : list (PyDatetime.datetime * string)) :
  (forall now line w,
     Inv.wf_book (book w) -> Inv.wf_book (book (snd (step now line w))))
  /\ (forall w,
        Inv.wf_book (book w) -> Inv.wf_book (book (snd (loop inputs w))))
  /\ (forall fs,
        fs default_filename = None ->
        Inv.wf_book (book (snd (main fs inputs)))).
Proof.
  split; [|split].
  - intros now line w. apply wf_step.
  - intros w. apply wf_loop.
  - intros fs F. unfold main, main_body, bind, load_book,
      AddressBook.load_from_file.
    cbn [book disk stdout]. rewrite F. cbn [put print].
    apply wf_loop. cbn [book]. split; constructor.
Qed.

Lemma turns_keep_book_well_formed_witness :
  let now := PyDatetime.Datetime 2024 3 12 10 30 0 0 in
  let inputs := [(now, "add Alice 1234567890"); (now, "add Alice 12345");
                 (now, "add-birthday Alice 15.03.1990");
                 (now, "change Alice 1234567890 0123456789")] in
  Inv.wf_book
    (book (snd (main (H := RefPickle.pickle) (fun _ => None) inputs))).
Proof.
  intros now inputs.
  destruct (@turns_keep_book_well_formed RefPickle.pickle inputs)
    as (_ & _ & A).
  apply A. reflexivity.
Defined.

(** ** Upcoming birthdays and day counts *)

(** X24: when [get_upcoming_birthdays] returns, the list is made of the
    records of the book, in the order of the book, that have a birthday
    whose day and month, put in the year of [today] at midnight, lie
    between [today] and seven days later, both compared as dates with
    time of day. *)
Theorem upcoming_birthdays_window (today : PyDatetime.datetime)
  (data : AddressBook.t) (l : list Record.t) :
  AddressBook.get_upcoming_birthdays today data = Ok l ->
  exists next_week,
    PyDatetime.add_days today 7 = Ok next_week
    /\ l = filter
             (fun r =>
                match AddressBook.upcoming today next_week r with
                | Ok true => true
                | _ => false
                end)
             (PyDict.values data)
    /\ forall r,
         In r l <->
         In r (PyDict.values data)
         /\ exists b d this_year,
              Record.birthday r = Some b
              /\ Birthday.date b = Ok d
              /\ PyDatetime.replace_year d (PyDatetime.year today)
                 = Ok this_year
              /\ PyDatetime.le today this_year = true
              /\ PyDatetime.le this_year next_week = true.
Proof.
  intros E.
  destruct (get_upcoming_birthdays_filter today data l E)
    as (next_week & A & F & _).
  exists next_week. split; [exact A|]. split; [exact F|].
  intros r. rewrite F, filter_In.
  assert (U : match AddressBook.upcoming today next_week r with
              | Ok true => true
              | _ => false
              end = true
              <-> exists b d this_year,
                    Record.birthday r = Some b
                    /\ Birthday.date b = Ok d
                    /\ PyDatetime.replace_year d (PyDatetime.year today)
                       = Ok this_year
                    /\ PyDatetime.le today this_year = true
                    /\ PyDatetime.le this_year next_week = true).
  { unfold AddressBook.upcoming. split.
    - destruct (Record.birthday r) as [b|]; [|discriminate].
      destruct (Birthday.date b) as [d|e] eqn:D; cbn [rbind];
        [|discriminate].
      destruct (PyDatetime.replace_year d (PyDatetime.year today))
        as [y|e] eqn:R; cbn [rbind]; [|discriminate].
      destruct (PyDatetime.le today y && PyDatetime.le y next_week) eqn:C;
        [|discriminate].
      apply andb_true_iff in C as [C1 C2]. intros _.
      exists b, d, y. repeat split; assumption.
    - intros (b & d & y & -> & D & R & C1 & C2). rewrite D. cbn [rbind].
      rewrite R. cbn [rbind]. now rewrite C1, C2. }
  now rewrite U.
Qed.

Lemma upcoming_birthdays_window_witness :
  let alice := Record.Make "Alice" [] (Some "15.03.1990") in
  let bob := Record.Make "Bob" [] None in
  let carol := Record.Make "Carol" [] (Some "20.03.1985") in
  let data := [("Alice", alice); ("Bob", bob); ("Carol", carol)] in
  exists next_week,
    PyDatetime.add_days (PyDatetime.Datetime 2024 3 12 10 30 0 0) 7
    = Ok next_week
    /\ [alice]
       = filter
           (fun r =>
              match AddressBook.upcoming
                      (PyDatetime.Datetime 2024 3 12 10 30 0 0) next_week r
              with
              | Ok true => true
              | _ => false
              end)
           (PyDict.values data).
Proof.
  intros alice bob carol data.
  destruct (upcoming_birthdays_window
              (PyDatetime.Datetime 2024 3 12 10 30 0 0) data [alice])
    as (next_week & A & F & _).
  - vm_compute. reflexivity.
  - exists next_week. split; [exact A | exact F].
Defined.

Section CalendarFacts.
Import PyDatetime Inv.

Lemma days_before_next_year (y : Z) :
  days_before_year (y + 1) = days_before_year y + days_in_year y.
Proof.
  unfold days_before_year, days_in_year, is_leap.
  replace (y + 1 - 1) with y by lia.
  destruct (Z.eqb_spec (y mod 4) 0) as [H4|H4];
    destruct (Z.eqb_spec (y mod 100) 0) as [H100|H100];
    destruct (Z.eqb_spec (y mod 400) 0) as [H400|H400];
    cbn [andb orb negb]; Z.div_mod_to_equations; lia.
Qed.

Lemma leap_then_next_not (y : Z) :
  is_leap y = true -> is_leap (y + 1) = false.
Proof.
  unfold is_leap. rewrite andb_true_iff, Z.eqb_eq. intros [H4 _].
  destruct (Z.eqb_spec ((y + 1) mod 4) 0) as [H|H]; [|reflexivity].
  Z.div_mod_to_equations. lia.
Qed.

Ltac month_cases m :=
  let C := fresh "C" in
  assert (m = 1 \/ m = 2 \/ m = 3 \/ m = 4 \/ m = 5 \/ m = 6 \/ m = 7
          \/ m = 8 \/ m = 9 \/ m = 10 \/ m = 11 \/ m = 12) as C by lia;
  repeat destruct C as [C|C]; subst m.

Lemma month_ends_in_year (y m : Z) :
  1 <= m <= 12 ->
  0 <= days_before_month y m
  /\ 28 <= days_in_month y m
  /\ days_before_month y m + days_in_month y m <= days_in_year y.
Proof.
  intros H. month_cases m;
    unfold days_before_month, days_in_month, days_in_year, table;
    destruct (is_leap y); vm_compute; repeat split; discriminate.
Qed.

Lemma month_ends_before_next (y m1 m2 : Z) :
  1 <= m1 -> m1 < m2 -> m2 <= 12 ->
  days_before_month y m1 + days_in_month y m1 <= days_before_month y m2.
Proof.
  intros H1 H H2. month_cases m1; month_cases m2; try lia;
    unfold days_before_month, days_in_month, table;
    destruct (is_leap y); vm_compute; discriminate.
Qed.

Lemma month_start_next_year (y m : Z) :
  1 <= m <= 12 ->
  days_before_month (y + 1) m
  <= days_before_month y m + (if is_leap y then 0 else 1).
Proof.
  intros H. pose proof (leap_then_next_not y) as L.
  unfold days_before_month.
  destruct (is_leap y); [rewrite (L eq_refl)|];
    destruct (2 <? m); destruct (is_leap (y + 1)); cbn [andb]; lia.
Qed.

Lemma calendar_date_bounds (y m d : Z) :
  Spec.calendar_date y m d = true ->
  1 <= y <= 9999 /\ 1 <= m <= 12 /\ 1 <= d <= days_in_month y m.
Proof.
  unfold Spec.calendar_date. rewrite !andb_true_iff, !Z.leb_le. lia.
Qed.

End CalendarFacts.

(** X25: for a record with a birthday, at any valid [today],
    [days_to_birthday], when it returns, returns a count between 0 and
    365: never a negative number, never a whole leap year. *)
Theorem days_to_birthday_range (today : PyDatetime.datetime)
  (self : Record.t) (n : Z) :
  Inv.valid_datetime today ->
  Record.days_to_birthday today self = Ok (Some n) ->
  0 <= n <= 365.
Proof.
  intros (Ct & Hh & Hm & Hs & Hu) E.
  unfold Record.days_to_birthday, Birthday.date in E.
  destruct (Record.birthday self) as [b|]; [|discriminate].
  destruct (PyDatetime.strptime b) as [d|e] eqn:S; cbn [rbind] in E;
    [|discriminate].
  apply strptime_ok in S.
  destruct S as (D & M & Y & _ & _ & _ & _ & Cb & ->).
  destruct today as [ty tm td h mi s us].
  cbn [PyDatetime.year PyDatetime.month PyDatetime.day PyDatetime.hour
       PyDatetime.minute PyDatetime.second PyDatetime.microsecond] in *.
  set (mb := Spec.value M) in *. set (db := Spec.value D) in *.
  unfold PyDatetime.replace_year in E.
  cbn [PyDatetime.year PyDatetime.month PyDatetime.day PyDatetime.hour
       PyDatetime.minute PyDatetime.second PyDatetime.microsecond] in E.
  destruct (PyDatetime.new ty mb db 0 0 0 0) as [nb|e] eqn:N;
    cbn [rbind] in E; [|discriminate].
  apply new_ok in N as [C1 ->].
  apply calendar_date_bounds in Ct as (Hy & Htm & Htd).
  apply calendar_date_bounds in C1 as (_ & Hmb & Hdb).
  pose proof (month_ends_in_year ty tm Htm) as (T0 & _ & T1).
  pose proof (month_ends_in_year ty mb Hmb) as (B0 & _ & B1).
  pose proof (days_before_next_year ty) as NY.
  assert (Q : forall x, 0 <= x < 366 * (86400 * 1000000) ->
                        0 <= x / (86400 * 1000000) <= 365).
  { intros x Hx. split; [apply Z.div_pos; lia|].
    assert (x / (86400 * 1000000) < 366); [|lia].
    apply Z.div_lt_upper_bound; lia. }
  destruct (PyDatetime.lt _ _) eqn:LT.
  - unfold PyDatetime.replace_year in E.
    cbn [PyDatetime.year PyDatetime.month PyDatetime.day PyDatetime.hour
         PyDatetime.minute PyDatetime.second PyDatetime.microsecond] in E.
    destruct (PyDatetime.new (ty + 1) mb db 0 0 0 0) as [nb|e] eqn:N2;
      cbn [rbind] in E; [|discriminate].
    apply new_ok in N2 as [C2 ->]. injection E as <-.
    pose proof (month_ends_in_year (ty + 1) mb Hmb) as (B0' & _ & _).
    pose proof (month_start_next_year ty mb Hmb) as B2.
    unfold Inv.days_in_year in *.
    unfold PyDatetime.sub_days, PyDatetime.microseconds,
      PyDatetime.toordinal, PyDatetime.ymd2ord.
    cbn [PyDatetime.year PyDatetime.month PyDatetime.day PyDatetime.hour
         PyDatetime.minute PyDatetime.second PyDatetime.microsecond].
    apply Q.
    unfold PyDatetime.lt, PyDatetime.cmp, PyDatetime.fields in LT.
    cbn [PyDatetime.cmp_fields PyDatetime.year PyDatetime.month
         PyDatetime.day PyDatetime.hour PyDatetime.minute PyDatetime.second
         PyDatetime.microsecond] in LT.
    rewrite Z.compare_refl in LT.
    destruct (Z.compare_spec mb tm) as [Em|Lm|Gm]; [| |discriminate].
    + subst tm.
      destruct (PyDatetime.is_leap ty);
        repeat match type of LT with
               | context [?a ?= ?b] => destruct (Z.compare_spec a b)
               end; try discriminate; lia.
    + pose proof (month_ends_before_next ty mb tm ltac:(lia) Lm ltac:(lia)).
      destruct (PyDatetime.is_leap ty); lia.
  - injection E as <-.
    unfold Inv.days_in_year in *.
    unfold PyDatetime.sub_days, PyDatetime.microseconds,
      PyDatetime.toordinal, PyDatetime.ymd2ord.
    cbn [PyDatetime.year PyDatetime.month PyDatetime.day PyDatetime.hour
         PyDatetime.minute PyDatetime.second PyDatetime.microsecond].
    apply Q.
    unfold PyDatetime.lt, PyDatetime.cmp, PyDatetime.fields in LT.
    cbn [PyDatetime.cmp_fields PyDatetime.year PyDatetime.month
         PyDatetime.day PyDatetime.hour PyDatetime.minute PyDatetime.second
         PyDatetime.microsecond] in LT.
    rewrite Z.compare_refl in LT.
    destruct (Z.compare_spec mb tm) as [Em|Lm|Gm]; [|discriminate|].
    + subst tm.
      destruct (PyDatetime.is_leap ty);
        repeat match type of LT with
               | context [?a ?= ?b] => destruct (Z.compare_spec a b)
               end; try discriminate; lia.
    + pose proof (month_ends_before_next ty tm mb ltac:(lia) Gm ltac:(lia)).
      destruct (PyDatetime.is_leap ty); lia.
Qed.

Lemma days_to_birthday_range_witness :
  let today := PyDatetime.Datetime 2024 3 12 10 30 0 0 in
  let alice := Record.Make "Alice" [] (Some "15.03.1990") in
  Record.days_to_birthday today alice = Ok (Some 2) /\ 0 <= 2 <= 365.
Proof.
  intros today alice.
  assert (E : Record.days_to_birthday today alice = Ok (Some 2))
    by (vm_compute; reflexivity).
  split; [exact E|].
  apply (days_to_birthday_range today alice 2); [|exact E].
  unfold Inv.valid_datetime. cbn. repeat split; lia.
Defined.
